(** * xiaomi_miio_airpurifier: the MIoT air purifier client (zhimi.airpurifier.za1)

    A shallow embedding of
    [custom_components/xiaomi_miio_airpurifier/airpurifier_miot.py]:
    the property map of the model, the status containers with their
    typed accessors, and the commands that validate their argument and
    delegate one property write to the device client.

    Python values are a small tagged union, exceptions are data, a
    dictionary with string keys is a [gmap string _], and a method that
    talks to the device threads the log of the calls it makes to the
    external client. *)

From Stdlib Require Import ZArith PrimFloat SpecFloat FloatOps FloatAxioms.
From stdpp Require Import gmap strings pretty list.

Set Warnings "-inexact-float".

Local Open Scope string_scope.
Local Open Scope Z_scope.

(** ** Enumerations *)

(** [class OperationMode(enum.Enum)] *)
Inductive OperationMode : Set := Auto | Silent | Favorite | Fan.

(** [class LedBrightness(enum.Enum)] *)
Inductive LedBrightness : Set := Bright | Dim | Off.

(** ** Python values and exceptions *)

(** The values that travel through this module: [None], booleans,
    integers (unbounded), floats (binary64), strings, and the members of
    the two enumerations. *)
Inductive PyVal : Set :=
| VNone
| VBool (b : bool)
| VInt (z : Z)
| VFloat (f : float)
| VStr (s : string)
| VMode (m : OperationMode)
| VLed (l : LedBrightness).

(** The exceptions that can surface.  [ValueError v cls] is the error of
    the enumeration call [cls(v)], whose text is "<v> is not a valid
    <cls>"; [AirPurifierMiotException] is the module's own subclass of
    the client's [DeviceException]. *)
Inductive PyExn : Set :=
| KeyError (key : string)
| ValueError (v : PyVal) (cls : string)
| TypeError (msg : string)
| DeviceException (msg : string)
| AirPurifierMiotException (msg : string).

(** A computation returns a value or raises. *)
Inductive Result (A : Type) : Type :=
| Ok (a : A)
| Raise (e : PyExn).

Arguments Ok {A} a.
Arguments Raise {A} e.

Definition rbind {A B : Type} (r : Result A) (k : A -> Result B) : Result B :=
  match r with
  | Ok a => k a
  | Raise e => Raise e
  end.

Declare Scope py_scope.
Delimit Scope py_scope with py.

Notation "x <- r ;; k" := (rbind r (fun x => k))
  (at level 100, r at next level, right associativity) : py_scope.

Local Open Scope py_scope.

(** [v is not None] *)
Definition is_not_None (v : PyVal) : bool :=
  match v with
  | VNone => false
  | _ => true
  end.

(** Truth value of [v], as [if v] tests it. *)
Definition truthy (v : PyVal) : bool :=
  match v with
  | VNone => false
  | VBool b => b
  | VInt z => negb (z =? 0)
  | VFloat f => negb (PrimFloat.eqb f 0%float)
  | VStr s => negb (String.eqb s "")
  | VMode _ | VLed _ => true
  end.

(** [d[key]]: a missing key raises [KeyError]. *)
Definition getitem {V : Type} (d : gmap string V) (key : string) : Result V :=
  match d !! key with
  | Some v => Ok v
  | None => Raise (KeyError key)
  end.

(** [d.get(key)]: a missing key yields [None]. *)
Definition dict_get (d : gmap string PyVal) (key : string) : PyVal :=
  match d !! key with
  | Some v => v
  | None => VNone
  end.

(** ** Enumeration values and lookup by value *)

Definition OperationMode_value (m : OperationMode) : Z :=
  match m with
  | Auto => 0
  | Silent => 1
  | Favorite => 2
  | Fan => 3
  end.

Definition LedBrightness_value (l : LedBrightness) : Z :=
  match l with
  | Bright => 0
  | Dim => 1
  | Off => 2
  end.

Definition OperationMode_members : list OperationMode := [Auto; Silent; Favorite; Fan].
Definition LedBrightness_members : list LedBrightness := [Bright; Dim; Off].

(** The float with the value of an enumeration code (a small integer,
    which binary64 holds exactly). *)
Definition float_of_code (z : Z) : float :=
  SF2Prim (binary_normalize prec emax z 0 false).

(** [v == z] for an integer [z], as the dictionary of an enumeration's
    values compares keys: a boolean is the integer 0 or 1, a float is
    compared by value, everything else differs. *)
Definition eq_int (v : PyVal) (z : Z) : bool :=
  match v with
  | VInt z' => z' =? z
  | VBool b => Z.b2z b =? z
  | VFloat f => PrimFloat.eqb f (float_of_code z)
  | _ => false
  end.

(** The member whose value equals [v], if there is one. *)
Definition member_by_value {E : Type} (value : E -> Z) (members : list E)
    (v : PyVal) : option E :=
  List.find (fun m => eq_int v (value m)) members.

(** [OperationMode(v)]: a member is returned as it is, a value is
    looked up, anything else is a [ValueError]. *)
Definition OperationMode_call (v : PyVal) : Result PyVal :=
  match v with
  | VMode m => Ok (VMode m)
  | _ =>
      match member_by_value OperationMode_value OperationMode_members v with
      | Some m => Ok (VMode m)
      | None => Raise (ValueError v "OperationMode")
      end
  end.

(** [LedBrightness(v)] *)
Definition LedBrightness_call (v : PyVal) : Result PyVal :=
  match v with
  | VLed l => Ok (VLed l)
  | _ =>
      match member_by_value LedBrightness_value LedBrightness_members v with
      | Some l => Ok (VLed l)
      | None => Raise (ValueError v "LedBrightness")
      end
  end.

(** ** [round(x, 1)] *)

(** The integer nearest to [a / b] for [0 < b], a tie going to the even
    neighbour. *)
Definition div_round_half_even (a b : Z) : Z :=
  let q := a / b in
  match 2 * (a mod b) ?= b with
  | Lt => q
  | Gt => q + 1
  | Eq => if Z.even q then q else q + 1
  end.

(** The number of tenths nearest to the magnitude [m * 2^e] of a finite
    float: [10 * m * 2^e] rounded to an integer, ties to even. *)
Definition nearest_tenths (m : positive) (e : Z) : Z :=
  match e with
  | Zneg p => div_round_half_even (10 * Zpos m) (2 ^ Zpos p)
  | _ => 10 * Zpos m * 2 ^ e
  end.

(** The float nearest to the decimal [n / 10] with sign [s] (the sign
    is kept when [n] is 0). *)
Definition float_of_tenths (s : bool) (n : Z) : float :=
  match n with
  | Zpos n' => SF2Prim (SFdiv prec emax (S754_finite s n' 0) (S754_finite false 10 0))
  | _ => SF2Prim (S754_zero s)
  end.

(** [round(x, 1)] on a float: the value is rounded correctly to one
    decimal digit (half to even, on its exact binary value) and the
    decimal [n / 10] is read back as the nearest float; the sign is
    kept, and zeros, infinities and NaN round to themselves. *)
Definition float_round1 (x : float) : float :=
  match Prim2SF x with
  | S754_finite s m e => float_of_tenths s (nearest_tenths m e)
  | _ => x
  end.

(** [round(v, 1)] by the type of [v]: a float rounds to a float, an
    integer (or a boolean, which is an integer) is returned as an
    integer, and no other value defines [__round__]. *)
Definition py_round1 (v : PyVal) : Result PyVal :=
  match v with
  | VFloat f => Ok (VFloat (float_round1 f))
  | VInt z => Ok (VInt z)
  | VBool b => Ok (VInt (Z.b2z b))
  | VNone => Raise (TypeError "type NoneType doesn't define __round__ method")
  | VStr _ => Raise (TypeError "type str doesn't define __round__ method")
  | VMode _ => Raise (TypeError "type OperationMode doesn't define __round__ method")
  | VLed _ => Raise (TypeError "type LedBrightness doesn't define __round__ method")
  end.

(** ** The property map *)

(** A MIoT address: service id and property id. *)
Record PropertyAddress : Set := { siid : Z; piid : Z }.

Definition _MODEL_AIRPURIFIER_ZA1 : gmap string PropertyAddress :=
  list_to_map
    [ (* Air Purifier *)
      ("power", {| siid := 2; piid := 1 |});
      ("mode", {| siid := 2; piid := 5 |});
      (* Environment *)
      ("tvoc", {| siid := 3; piid := 1 |});
      ("pm25", {| siid := 3; piid := 6 |});
      ("humidity", {| siid := 3; piid := 7 |});
      ("temperature", {| siid := 3; piid := 8 |});
      (* Filter *)
      ("filter_life_remaining", {| siid := 4; piid := 3 |});
      ("filter_hours_used", {| siid := 4; piid := 5 |});
      (* Alarm *)
      ("buzzer", {| siid := 5; piid := 1 |});
      (* Screen *)
      ("led_brightness", {| siid := 6; piid := 1 |});
      (* Physical Control Locked *)
      ("child_lock", {| siid := 7; piid := 1 |});
      (* Motor Speed (siid=10) *)
      ("favorite_level", {| siid := 10; piid := 10 |});
      ("motor_speed", {| siid := 10; piid := 11 |});
      (* Use time (siid=12) *)
      ("use_time", {| siid := 12; piid := 1 |});
      (* AQI (siid=13) *)
      ("purify_volume", {| siid := 13; piid := 1 |});
      ("average_aqi", {| siid := 13; piid := 2 |});
      (* RFID (siid=14) *)
      ("filter_rfid_tag", {| siid := 14; piid := 1 |});
      ("filter_rfid_product_id", {| siid := 14; piid := 3 |});
      (* custom-service *)
      ("gesture_status", {| siid := 15; piid := 13 |}) ].

(** ** Status containers *)

(** A status object holds the dictionary it was built from
    ([self.data = data]). *)
Record DeviceStatus : Type := { data : gmap string PyVal }.

(** [class BasicAirPurifierMiotStatus(DeviceStatus)] *)
Module BasicAirPurifierMiotStatus.

Definition is_on (self : DeviceStatus) : Result PyVal :=
  getitem (data self) "power".

Definition power (self : DeviceStatus) : Result PyVal :=
  on <- is_on self ;;
  Ok (VStr (if truthy on then "on" else "off")).

Definition tvoc (self : DeviceStatus) : Result PyVal :=
  getitem (data self) "tvoc".

Definition mode (self : DeviceStatus) : Result PyVal :=
  raw <- getitem (data self) "mode" ;;
  OperationMode_call raw.

Definition buzzer (self : DeviceStatus) : Result PyVal :=
  raw <- getitem (data self) "buzzer" ;;
  if is_not_None raw then getitem (data self) "buzzer" else Ok VNone.

Definition child_lock (self : DeviceStatus) : Result PyVal :=
  getitem (data self) "child_lock".

Definition filter_life_remaining (self : DeviceStatus) : Result PyVal :=
  getitem (data self) "filter_life_remaining".

Definition filter_hours_used (self : DeviceStatus) : Result PyVal :=
  getitem (data self) "filter_hours_used".

Definition motor_speed (self : DeviceStatus) : Result PyVal :=
  getitem (data self) "motor_speed".

Definition favorite_rpm (self : DeviceStatus) : Result PyVal :=
  Ok (dict_get (data self) "favorite_rpm").

End BasicAirPurifierMiotStatus.

(** [class AirPurifierZA1Status(BasicAirPurifierMiotStatus)]: the
    accessors of the base class are inherited. *)
Module AirPurifierZA1Status.
Include BasicAirPurifierMiotStatus.

Definition average_aqi (self : DeviceStatus) : Result PyVal :=
  getitem (data self) "average_aqi".

Definition humidity (self : DeviceStatus) : Result PyVal :=
  getitem (data self) "humidity".

Definition temperature (self : DeviceStatus) : Result PyVal :=
  raw <- getitem (data self) "temperature" ;;
  if is_not_None raw then
    t <- getitem (data self) "temperature" ;;
    py_round1 t
  else Ok VNone.

Definition led_brightness (self : DeviceStatus) : Result PyVal :=
  raw <- getitem (data self) "led_brightness" ;;
  if is_not_None raw then
    match (b <- getitem (data self) "led_brightness" ;; LedBrightness_call b) with
    | Raise (ValueError _ _) => Ok VNone
    | r => r
    end
  else Ok VNone.

Definition favorite_level (self : DeviceStatus) : Result PyVal :=
  getitem (data self) "favorite_level".

Definition use_time (self : DeviceStatus) : Result PyVal :=
  getitem (data self) "use_time".

Definition purify_volume (self : DeviceStatus) : Result PyVal :=
  getitem (data self) "purify_volume".

Definition filter_rfid_product_id (self : DeviceStatus) : Result PyVal :=
  getitem (data self) "filter_rfid_product_id".

Definition filter_rfid_tag (self : DeviceStatus) : Result PyVal :=
  getitem (data self) "filter_rfid_tag".

Definition pm25 (self : DeviceStatus) : Result PyVal :=
  getitem (data self) "pm25".

Definition gesture_status (self : DeviceStatus) : Result PyVal :=
  getitem (data self) "gesture_status".

End AirPurifierZA1Status.

(** ** The device client

    [MiotDevice] belongs to the python-miio library.  This module only
    calls two of its methods, [set_property] and
    [get_properties_for_mapping]; what the device answers is not decided
    here, so a device is given by its answers, and a method of this
    module is a computation over the log of the calls made so far. *)

Inductive Call : Set :=
| SetProperty (property_key : string) (v : PyVal)
| GetPropertiesForMapping.

(** One entry of the list [get_properties_for_mapping] returns: the
    dictionary [{'did': .., 'siid': .., 'piid': .., 'code': .., 'value': ..}].
    The key ['value'] may be missing (the device sends none with an error
    code), which is [prop_value = None]. *)
Record PropertyResult : Set := {
  prop_did : string;
  prop_siid : Z;
  prop_piid : Z;
  prop_code : Z;
  prop_value : option PyVal
}.

Record MiotDevice : Type := {
  set_property_reply : string -> PyVal -> Result PyVal;
  get_properties_reply : Result (list PropertyResult)
}.

Definition Cmd (A : Type) : Type := list Call -> Result A * list Call.

Definition cret {A : Type} (a : A) : Cmd A := fun log => (Ok a, log).

Definition craise {A : Type} (e : PyExn) : Cmd A := fun log => (Raise e, log).

Definition clift {A : Type} (r : Result A) : Cmd A := fun log => (r, log).

Definition cbind {A B : Type} (c : Cmd A) (k : A -> Cmd B) : Cmd B :=
  fun log =>
    match c log with
    | (Ok a, log') => k a log'
    | (Raise e, log') => (Raise e, log')
    end.

Notation "x <~ c ;; k" := (cbind c (fun x => k))
  (at level 100, c at next level, right associativity) : py_scope.

(** [self.set_property(property_key, value)]: the call is logged and the
    client's answer (a reply, or the exception it raises) is the result. *)
Definition set_property (self : MiotDevice) (property_key : string) (v : PyVal)
    : Cmd PyVal :=
  fun log => (set_property_reply self property_key v, (log ++ [SetProperty property_key v])%list).

(** [self.get_properties_for_mapping()] *)
Definition get_properties_for_mapping (self : MiotDevice) : Cmd (list PropertyResult) :=
  fun log => (get_properties_reply self, (log ++ [GetPropertiesForMapping])%list).

(** The property keys written in a log. *)
Definition written_keys (log : list Call) : list string :=
  omap (fun c => match c with SetProperty k _ => Some k | _ => None end) log.

(** [class BasicAirPurifierMiot(MiotDevice)] *)
Module BasicAirPurifierMiot.

Definition on (self : MiotDevice) : Cmd PyVal :=
  set_property self "power" (VBool true).

Definition off (self : MiotDevice) : Cmd PyVal :=
  set_property self "power" (VBool false).

Definition set_favorite_rpm (self : MiotDevice) (rpm : Z) : Cmd PyVal :=
  if (rpm <? 300) || (rpm >? 2300) || negb (rpm mod 10 =? 0) then
    craise (AirPurifierMiotException
              ("Invalid favorite motor speed: " +:+ pretty rpm
               +:+ ". Must be between 300 and 2300 and divisible by 10"))
  else set_property self "favorite_rpm" (VInt rpm).

Definition set_mode (self : MiotDevice) (mode : OperationMode) : Cmd PyVal :=
  set_property self "mode" (VInt (OperationMode_value mode)).

Definition set_buzzer (self : MiotDevice) (buzzer : bool) : Cmd PyVal :=
  set_property self "buzzer" (VBool buzzer).

Definition set_child_lock (self : MiotDevice) (lock : bool) : Cmd PyVal :=
  set_property self "child_lock" (VBool lock).

End BasicAirPurifierMiot.

(** The dictionary comprehension of [status]:
    [{prop["did"]: prop["value"] if prop["code"] == 0 else None for prop in props}].
    Entries are stored in order, a later one replacing an earlier one
    with the same key; [prop["value"]] is only read when the code is 0. *)
Fixpoint dict_of_results (props : list PropertyResult) (acc : gmap string PyVal)
    : Result (gmap string PyVal) :=
  match props with
  | [] => Ok acc
  | prop :: rest =>
      v <- (if prop_code prop =? 0 then
              match prop_value prop with
              | Some v => Ok v
              | None => Raise (KeyError "value")
              end
            else Ok VNone) ;;
      dict_of_results rest (<[prop_did prop := v]> acc)
  end.

(** [class AirPurifierZA1(BasicAirPurifierMiot)] *)
Module AirPurifierZA1.
Include BasicAirPurifierMiot.

Definition mapping : gmap string PropertyAddress := _MODEL_AIRPURIFIER_ZA1.

Definition status (self : MiotDevice) : Cmd DeviceStatus :=
  props <~ get_properties_for_mapping self ;;
  clift (d <- dict_of_results props ∅ ;; Ok {| data := d |}).

Definition set_gesture (self : MiotDevice) (gesture : bool) : Cmd PyVal :=
  set_property self "gesture" (VBool gesture).

Definition set_favorite_level (self : MiotDevice) (level : Z) : Cmd PyVal :=
  if (level <? 0) || (level >? 14) then
    craise (AirPurifierMiotException ("Invalid favorite level: " +:+ pretty level))
  else set_property self "favorite_level" (VInt level).

Definition set_led_brightness (self : MiotDevice) (brightness : LedBrightness)
    : Cmd PyVal :=
  set_property self "led_brightness" (VInt (LedBrightness_value brightness)).

End AirPurifierZA1.

(** ** The accessors of [AirPurifierZA1Status], by name *)

Inductive Accessor : Set :=
| A_is_on | A_power | A_tvoc | A_mode | A_buzzer | A_child_lock
| A_filter_life_remaining | A_filter_hours_used | A_motor_speed
| A_favorite_rpm | A_average_aqi | A_humidity | A_temperature
| A_led_brightness | A_favorite_level | A_use_time | A_purify_volume
| A_filter_rfid_product_id | A_filter_rfid_tag | A_pm25 | A_gesture_status.

(** The key of [self.data] an accessor reads. *)
Definition accessor_key (a : Accessor) : string :=
  match a with
  | A_is_on | A_power => "power"
  | A_tvoc => "tvoc"
  | A_mode => "mode"
  | A_buzzer => "buzzer"
  | A_child_lock => "child_lock"
  | A_filter_life_remaining => "filter_life_remaining"
  | A_filter_hours_used => "filter_hours_used"
  | A_motor_speed => "motor_speed"
  | A_favorite_rpm => "favorite_rpm"
  | A_average_aqi => "average_aqi"
  | A_humidity => "humidity"
  | A_temperature => "temperature"
  | A_led_brightness => "led_brightness"
  | A_favorite_level => "favorite_level"
  | A_use_time => "use_time"
  | A_purify_volume => "purify_volume"
  | A_filter_rfid_product_id => "filter_rfid_product_id"
  | A_filter_rfid_tag => "filter_rfid_tag"
  | A_pm25 => "pm25"
  | A_gesture_status => "gesture_status"
  end.

(** Evaluating the property [a] of a status object. *)
Definition read (a : Accessor) (self : DeviceStatus) : Result PyVal :=
  match a with
  | A_is_on => AirPurifierZA1Status.is_on self
  | A_power => AirPurifierZA1Status.power self
  | A_tvoc => AirPurifierZA1Status.tvoc self
  | A_mode => AirPurifierZA1Status.mode self
  | A_buzzer => AirPurifierZA1Status.buzzer self
  | A_child_lock => AirPurifierZA1Status.child_lock self
  | A_filter_life_remaining => AirPurifierZA1Status.filter_life_remaining self
  | A_filter_hours_used => AirPurifierZA1Status.filter_hours_used self
  | A_motor_speed => AirPurifierZA1Status.motor_speed self
  | A_favorite_rpm => AirPurifierZA1Status.favorite_rpm self
  | A_average_aqi => AirPurifierZA1Status.average_aqi self
  | A_humidity => AirPurifierZA1Status.humidity self
  | A_temperature => AirPurifierZA1Status.temperature self
  | A_led_brightness => AirPurifierZA1Status.led_brightness self
  | A_favorite_level => AirPurifierZA1Status.favorite_level self
  | A_use_time => AirPurifierZA1Status.use_time self
  | A_purify_volume => AirPurifierZA1Status.purify_volume self
  | A_filter_rfid_product_id => AirPurifierZA1Status.filter_rfid_product_id self
  | A_filter_rfid_tag => AirPurifierZA1Status.filter_rfid_tag self
  | A_pm25 => AirPurifierZA1Status.pm25 self
  | A_gesture_status => AirPurifierZA1Status.gesture_status self
  end.

(** ** Text of error messages *)

(** [needle in hay] on strings. *)
Fixpoint occurs_in (needle hay : string) : bool :=
  String.prefix needle hay
  || match hay with
     | EmptyString => false
     | String _ hay' => occurs_in needle hay'
     end.

(** A message names the range [lo..hi] only if it shows both bounds. *)
Definition names_range (lo hi : Z) (msg : string) : bool :=
  occurs_in (pretty lo) msg && occurs_in (pretty hi) msg.

(** ** Concrete devices and statuses used in the examples *)

(** A device that acknowledges every write and reports nothing. *)
Definition quiet_device : MiotDevice :=
  {| set_property_reply := fun _ _ => Ok (VStr "ok");
     get_properties_reply := Ok [] |}.

(** A bulk-read result: two properties reported, a third refused. *)
Definition reported : list PropertyResult :=
  [ {| prop_did := "power"; prop_siid := 2; prop_piid := 1;
       prop_code := 0; prop_value := Some (VBool true) |};
    {| prop_did := "mode"; prop_siid := 2; prop_piid := 5;
       prop_code := 0; prop_value := Some (VInt 2) |};
    {| prop_did := "tvoc"; prop_siid := 3; prop_piid := 1;
       prop_code := -4001; prop_value := None |} ].

(** A device whose bulk read returns [reported]. *)
Definition reporting_device : MiotDevice :=
  {| set_property_reply := fun _ _ => Ok (VStr "ok");
     get_properties_reply := Ok reported |}.

Definition status_of (d : gmap string PyVal) : DeviceStatus := {| data := d |}.

(** ** Statements about the text of the favorite-level error, and about
    absent results, as the interface describes them *)

(** An out-of-range favorite level is refused with a message that shows
    both the level and the range 0..14. *)
Definition favorite_level_error_names_value_and_range : Prop :=
  forall (self : MiotDevice) (level : Z) (log : list Call),
    level < 0 \/ 14 < level ->
    exists msg,
      fst (AirPurifierZA1.set_favorite_level self level log)
        = Raise (AirPurifierMiotException msg)
      /\ occurs_in (pretty level) msg = true
      /\ names_range 0 14 msg = true.

(** [favorite_rpm] is the only accessor that tolerates a missing key:
    every other one raises [KeyError] on it, and yields [None] only for
    a key that is present and holds [None]. *)
Definition only_favorite_rpm_tolerates_missing_key : Prop :=
  forall (a : Accessor) (self : DeviceStatus),
    (data self !! accessor_key a = None ->
       (a = A_favorite_rpm -> read a self = Ok VNone)
       /\ (a <> A_favorite_rpm -> read a self = Raise (KeyError (accessor_key a))))
    /\ (a <> A_favorite_rpm ->
        read a self = Ok VNone ->
        data self !! accessor_key a = Some VNone).

(** What the comprehension of [status] stores for one entry, when the
    entry can be read. *)
Definition stored_value (p : PropertyResult) : option PyVal :=
  if prop_code p =? 0 then prop_value p else Some VNone.

(** ** The commands of [AirPurifierZA1], by name and argument *)

Inductive Command : Set :=
| C_on
| C_off
| C_set_favorite_rpm (rpm : Z)
| C_set_mode (mode : OperationMode)
| C_set_buzzer (buzzer : bool)
| C_set_child_lock (lock : bool)
| C_set_gesture (gesture : bool)
| C_set_favorite_level (level : Z)
| C_set_led_brightness (brightness : LedBrightness).

(** Calling the method a command names. *)
Definition invoke (self : MiotDevice) (c : Command) : Cmd PyVal :=
  match c with
  | C_on => AirPurifierZA1.on self
  | C_off => AirPurifierZA1.off self
  | C_set_favorite_rpm rpm => AirPurifierZA1.set_favorite_rpm self rpm
  | C_set_mode mode => AirPurifierZA1.set_mode self mode
  | C_set_buzzer buzzer => AirPurifierZA1.set_buzzer self buzzer
  | C_set_child_lock lock => AirPurifierZA1.set_child_lock self lock
  | C_set_gesture gesture => AirPurifierZA1.set_gesture self gesture
  | C_set_favorite_level level => AirPurifierZA1.set_favorite_level self level
  | C_set_led_brightness brightness => AirPurifierZA1.set_led_brightness self brightness
  end.

(** The accessors whose body is a subscript or a [get] with no decoding
    after it ([buzzer] tests for [None] first). *)
Definition returns_raw (a : Accessor) : bool :=
  match a with
  | A_power | A_mode | A_temperature | A_led_brightness => false
  | _ => true
  end.

(** A device whose client fails on every call. *)
Definition failing_device : MiotDevice :=
  {| set_property_reply := fun _ _ => Raise (DeviceException "timeout");
     get_properties_reply := Raise (DeviceException "timeout") |}.

(** A bulk-read result whose only entry has code 0 and no value. *)
Definition valueless : list PropertyResult :=
  [ {| prop_did := "power"; prop_siid := 2; prop_piid := 1;
       prop_code := 0; prop_value := None |} ].

Definition valueless_device : MiotDevice :=
  {| set_property_reply := fun _ _ => Ok (VStr "ok");
     get_properties_reply := Ok valueless |}.

(** The bag that [status] builds from [reported]. *)
Definition reported_status : DeviceStatus :=
  status_of (<["tvoc" := VNone]> (<["mode" := VInt 2]> (<["power" := VBool true]> ∅))).

(** A bulk-read result with one entry per logical name of the map [m],
    each answered with code 0 and the value 1. *)
Definition answer_all (m : gmap string PropertyAddress) : list PropertyResult :=
  (fun ka : string * PropertyAddress =>
     {| prop_did := fst ka; prop_siid := siid (snd ka); prop_piid := piid (snd ka);
        prop_code := 0; prop_value := Some (VInt 1) |}) <$> map_to_list m.

(** A device that answers for every property of the model. *)
Definition complete_device : MiotDevice :=
  {| set_property_reply := fun _ _ => Ok (VStr "ok");
     get_properties_reply := Ok (answer_all AirPurifierZA1.mapping) |}.

(** The status read from [complete_device]. *)
Definition complete_status : DeviceStatus :=
  match fst (AirPurifierZA1.status complete_device []) with
  | Ok st => st
  | Raise _ => status_of ∅
  end.

(** A bulk-read result in which the device refuses "mode". *)
Definition mode_refused : list PropertyResult :=
  [ {| prop_did := "power"; prop_siid := 2; prop_piid := 1;
       prop_code := 0; prop_value := Some (VBool true) |};
    {| prop_did := "mode"; prop_siid := 2; prop_piid := 5;
       prop_code := -4001; prop_value := None |} ].

Definition mode_refused_device : MiotDevice :=
  {| set_property_reply := fun _ _ => Ok (VStr "ok");
     get_properties_reply := Ok mode_refused |}.

(** The bag that [status] builds from [mode_refused]. *)
Definition mode_refused_status : DeviceStatus :=
  status_of (<["mode" := VNone]> (<["power" := VBool true]> ∅)).

(** * Properties *)

(** ** Helper lemmas *)

Lemma set_property_run (self : MiotDevice) (k : string) (v : PyVal) (log : list Call) :
  set_property self k v log = (set_property_reply self k v, (log ++ [SetProperty k v])%list).
Proof. reflexivity. Qed.

Lemma prefix_app (s t : string) : String.prefix s (s +:+ t) = true.
Proof.
  induction s as [|c s IH]; simpl.
  - destruct t; reflexivity.
  - destruct (Ascii.ascii_dec c c) as [_|Hne]; [exact IH | congruence].
Qed.

Lemma occurs_in_here (s t : string) : occurs_in s (s +:+ t) = true.
Proof.
  destruct s as [|c s]; simpl.
  - destruct t; reflexivity.
  - destruct (Ascii.ascii_dec c c) as [_|Hne]; [|congruence].
    now rewrite prefix_app.
Qed.

Lemma occurs_in_app (pre s post : string) :
  occurs_in s (pre +:+ s +:+ post) = true.
Proof.
  induction pre as [|c pre IH].
  - change (occurs_in s (s +:+ post) = true). apply occurs_in_here.
  - change (occurs_in s (String c (pre +:+ s +:+ post)) = true).
    destruct s as [|d s]; [reflexivity|].
    cbn [occurs_in]. rewrite IH. apply orb_true_r.
Qed.

Lemma append_empty_r (s : string) : s +:+ "" = s.
Proof.
  induction s as [|c s IH]; [reflexivity|].
  change (String c (s +:+ "") = String c s). now f_equal.
Qed.

Lemma occurs_in_suffix (pre s : string) : occurs_in s (pre +:+ s) = true.
Proof.
  pose proof (occurs_in_app pre s "") as H.
  now rewrite append_empty_r in H.
Qed.

(** ** Commands *)

(** C1 (the code departs from it): [set_gesture] hands the client the
    key "gesture", which the property map of the model does not hold;
    the map only has "gesture_status".  [set_favorite_rpm], inherited
    from the base class, likewise writes "favorite_rpm", which is not a
    key of the map either. *)
Theorem set_gesture_writes_unmapped_key (self : MiotDevice) (gesture : bool)
    (log : list Call) :
  AirPurifierZA1.set_gesture self gesture log
    = (set_property_reply self "gesture" (VBool gesture),
       (log ++ [SetProperty "gesture" (VBool gesture)])%list)
  /\ AirPurifierZA1.mapping !! "gesture" = None
  /\ AirPurifierZA1.mapping !! "gesture_status" = Some {| siid := 15; piid := 13 |}
  /\ AirPurifierZA1.mapping !! "favorite_rpm" = None.
Proof.
  split; [reflexivity|].
  repeat split; vm_compute; reflexivity.
Qed.

(** The remaining commands (all but [set_gesture] and [set_favorite_rpm])
    write keys of the property map. *)
Lemma mapped_commands_write_mapped_keys (self : MiotDevice) :
  Forall (fun c : Cmd PyVal =>
            Forall (fun k => is_Some (AirPurifierZA1.mapping !! k))
                   (written_keys (snd (c []))))
    [ AirPurifierZA1.on self; AirPurifierZA1.off self;
      AirPurifierZA1.set_buzzer self true; AirPurifierZA1.set_buzzer self false;
      AirPurifierZA1.set_child_lock self true; AirPurifierZA1.set_child_lock self false;
      AirPurifierZA1.set_mode self Auto; AirPurifierZA1.set_mode self Silent;
      AirPurifierZA1.set_mode self Favorite; AirPurifierZA1.set_mode self Fan;
      AirPurifierZA1.set_led_brightness self Bright;
      AirPurifierZA1.set_led_brightness self Dim;
      AirPurifierZA1.set_led_brightness self Off;
      AirPurifierZA1.set_favorite_level self 0;
      AirPurifierZA1.set_favorite_level self 14 ].
Proof.
  repeat (apply Forall_cons; split;
          [ cbn; repeat constructor; vm_compute; eexists; reflexivity | ]).
  apply Forall_nil; exact I.
Qed.

(** The guard of [set_favorite_rpm], read as the condition it tests. *)
Lemma rpm_guard_spec (rpm : Z) :
  (rpm <? 300) || (rpm >? 2300) || negb (rpm mod 10 =? 0) = false
  <-> 300 <= rpm <= 2300 /\ rpm mod 10 = 0.
Proof.
  rewrite !orb_false_iff, negb_false_iff, Z.ltb_ge, Z.gtb_ltb, Z.ltb_ge, Z.eqb_eq.
  lia.
Qed.

(** The guard of [set_favorite_level]. *)
Lemma level_guard_spec (level : Z) :
  (level <? 0) || (level >? 14) = false <-> 0 <= level <= 14.
Proof.
  rewrite orb_false_iff, Z.ltb_ge, Z.gtb_ltb, Z.ltb_ge. lia.
Qed.

(** C2: for 300 <= rpm <= 2300 with rpm mod 10 = 0, [set_favorite_rpm]
    makes exactly one call to the client, the write of the unchanged
    value to "favorite_rpm", and its result is the client's; for any
    other rpm it raises [AirPurifierMiotException] and calls nothing. *)
Theorem set_favorite_rpm_validates (self : MiotDevice) (rpm : Z) (log : list Call) :
  (300 <= rpm <= 2300 /\ rpm mod 10 = 0 ->
     BasicAirPurifierMiot.set_favorite_rpm self rpm log
       = (set_property_reply self "favorite_rpm" (VInt rpm),
          (log ++ [SetProperty "favorite_rpm" (VInt rpm)])%list))
  /\ (~ (300 <= rpm <= 2300 /\ rpm mod 10 = 0) ->
      exists msg,
        BasicAirPurifierMiot.set_favorite_rpm self rpm log
          = (Raise (AirPurifierMiotException msg), log)).
Proof.
  unfold BasicAirPurifierMiot.set_favorite_rpm.
  destruct ((rpm <? 300) || (rpm >? 2300) || negb (rpm mod 10 =? 0)) eqn:G.
  - split.
    + intros Hok. apply rpm_guard_spec in Hok. congruence.
    + intros _. eexists. reflexivity.
  - split.
    + intros _. apply set_property_run.
    + intros Hbad. apply rpm_guard_spec in G. contradiction.
Qed.

(** At 500 the write is made; 305, 299 and 2310 are refused. *)
Lemma set_favorite_rpm_validates_witness :
  BasicAirPurifierMiot.set_favorite_rpm quiet_device 500 []
    = (Ok (VStr "ok"), [SetProperty "favorite_rpm" (VInt 500)])
  /\ (exists msg,
        BasicAirPurifierMiot.set_favorite_rpm quiet_device 305 []
          = (Raise (AirPurifierMiotException msg), []))
  /\ (exists msg,
        BasicAirPurifierMiot.set_favorite_rpm quiet_device 299 []
          = (Raise (AirPurifierMiotException msg), []))
  /\ (exists msg,
        BasicAirPurifierMiot.set_favorite_rpm quiet_device 2310 []
          = (Raise (AirPurifierMiotException msg), [])).
Proof.
  split; [| split; [| split]].
  - apply (proj1 (set_favorite_rpm_validates quiet_device 500 [])).
    split; [lia | reflexivity].
  - apply (proj2 (set_favorite_rpm_validates quiet_device 305 [])).
    intros [_ H]. vm_compute in H. discriminate H.
  - apply (proj2 (set_favorite_rpm_validates quiet_device 299 [])). lia.
  - apply (proj2 (set_favorite_rpm_validates quiet_device 2310 [])). lia.
Defined.

(** C3: [set_mode m] writes the integer code of [m] to "mode" (2 for
    Favorite); the [mode] accessor decodes the code of [m] back to [m],
    and raises [ValueError] on an integer outside 0..3. *)
Theorem set_mode_roundtrip (self : MiotDevice) (m : OperationMode) (log : list Call) :
  BasicAirPurifierMiot.set_mode self m log
    = (set_property_reply self "mode" (VInt (OperationMode_value m)),
       (log ++ [SetProperty "mode" (VInt (OperationMode_value m))])%list)
  /\ OperationMode_value Favorite = 2
  /\ (forall st : DeviceStatus,
        data st !! "mode" = Some (VInt (OperationMode_value m)) ->
        BasicAirPurifierMiotStatus.mode st = Ok (VMode m))
  /\ (forall (st : DeviceStatus) (z : Z),
        ~ (0 <= z <= 3) ->
        data st !! "mode" = Some (VInt z) ->
        BasicAirPurifierMiotStatus.mode st = Raise (ValueError (VInt z) "OperationMode")).
Proof.
  split; [apply set_property_run|].
  split; [reflexivity|].
  split.
  - intros st H. unfold BasicAirPurifierMiotStatus.mode, getitem. rewrite H.
    destruct m; reflexivity.
  - intros st z Hz H. unfold BasicAirPurifierMiotStatus.mode, getitem. rewrite H.
    cbn [rbind OperationMode_call member_by_value OperationMode_members
         List.find eq_int OperationMode_value].
    destruct (Z.eqb_spec z 0); [lia|].
    destruct (Z.eqb_spec z 1); [lia|].
    destruct (Z.eqb_spec z 2); [lia|].
    destruct (Z.eqb_spec z 3); [lia|].
    reflexivity.
Qed.

(** Favorite is written as 2 and read back; 9 does not decode. *)
Lemma set_mode_roundtrip_witness :
  BasicAirPurifierMiot.set_mode quiet_device Favorite []
    = (Ok (VStr "ok"), [SetProperty "mode" (VInt 2)])
  /\ BasicAirPurifierMiotStatus.mode (status_of {[ "mode" := VInt 2 ]}) = Ok (VMode Favorite)
  /\ BasicAirPurifierMiotStatus.mode (status_of {[ "mode" := VInt 9 ]})
       = Raise (ValueError (VInt 9) "OperationMode").
Proof.
  pose proof (set_mode_roundtrip quiet_device Favorite []) as (Hw & _ & Hrt & Herr).
  split; [exact Hw|]. split.
  - apply (Hrt (status_of {[ "mode" := VInt 2 ]})). vm_compute. reflexivity.
  - apply (Herr (status_of {[ "mode" := VInt 9 ]}) 9); [lia|]. vm_compute. reflexivity.
Defined.

(** C4: for 0 <= level <= 14, [set_favorite_level] makes exactly one
    call to the client, the write of [level] to "favorite_level"; for
    any other level it raises [AirPurifierMiotException] and calls
    nothing. *)
Theorem set_favorite_level_validates (self : MiotDevice) (level : Z) (log : list Call) :
  (0 <= level <= 14 ->
     AirPurifierZA1.set_favorite_level self level log
       = (set_property_reply self "favorite_level" (VInt level),
          (log ++ [SetProperty "favorite_level" (VInt level)])%list))
  /\ (~ (0 <= level <= 14) ->
      exists msg,
        AirPurifierZA1.set_favorite_level self level log
          = (Raise (AirPurifierMiotException msg), log)).
Proof.
  unfold AirPurifierZA1.set_favorite_level.
  destruct ((level <? 0) || (level >? 14)) eqn:G.
  - split.
    + intros Hok. apply level_guard_spec in Hok. congruence.
    + intros _. eexists. reflexivity.
  - split.
    + intros _. apply set_property_run.
    + intros Hbad. apply level_guard_spec in G. contradiction.
Qed.

(** 14 is written; -1 and 15 are refused. *)
Lemma set_favorite_level_validates_witness :
  AirPurifierZA1.set_favorite_level quiet_device 14 []
    = (Ok (VStr "ok"), [SetProperty "favorite_level" (VInt 14)])
  /\ (exists msg,
        AirPurifierZA1.set_favorite_level quiet_device (-1) []
          = (Raise (AirPurifierMiotException msg), []))
  /\ (exists msg,
        AirPurifierZA1.set_favorite_level quiet_device 15 []
          = (Raise (AirPurifierMiotException msg), [])).
Proof.
  split; [| split].
  - apply (proj1 (set_favorite_level_validates quiet_device 14 [])). lia.
  - apply (proj2 (set_favorite_level_validates quiet_device (-1) [])). lia.
  - apply (proj2 (set_favorite_level_validates quiet_device 15 [])). lia.
Defined.

(** C5 as stated fails: at level 15 the message is
    "Invalid favorite level: 15", which shows neither bound of the
    range 0..14. *)
Lemma favorite_level_error_omits_range :
  ~ favorite_level_error_names_value_and_range.
Proof.
  intros H.
  destruct (H quiet_device 15 [] (or_intror eq_refl)) as (msg & Hmsg & _ & Hrange).
  vm_compute in Hmsg. injection Hmsg as <-.
  vm_compute in Hrange. discriminate Hrange.
Qed.

(** C5, amended: the error raised by [set_favorite_level] for an
    out-of-range level has the message "Invalid favorite level: "
    followed by the level in decimal, so it carries the offending value;
    the range is not part of the text. *)
Theorem set_favorite_level_error_message (self : MiotDevice) (level : Z)
    (log : list Call) :
  level < 0 \/ 14 < level ->
  AirPurifierZA1.set_favorite_level self level log
    = (Raise (AirPurifierMiotException ("Invalid favorite level: " +:+ pretty level)), log)
  /\ occurs_in (pretty level) ("Invalid favorite level: " +:+ pretty level) = true.
Proof.
  intros Hout. split.
  - unfold AirPurifierZA1.set_favorite_level.
    destruct ((level <? 0) || (level >? 14)) eqn:G; [reflexivity|].
    apply level_guard_spec in G. lia.
  - apply occurs_in_suffix.
Qed.

(** The message raised for level 15. *)
Lemma set_favorite_level_error_message_witness :
  AirPurifierZA1.set_favorite_level quiet_device 15 []
    = (Raise (AirPurifierMiotException ("Invalid favorite level: " +:+ pretty 15)), [])
  /\ occurs_in (pretty 15) ("Invalid favorite level: " +:+ pretty 15) = true.
Proof.
  apply (set_favorite_level_error_message quiet_device 15 []). right. lia.
Defined.

(** ** Status accessors *)

(** C6: [led_brightness] maps a raw integer in 0..2 to the member with
    that code (1 to Dim), any other integer to [None] without raising,
    and a raw [None] to [None]. *)
Theorem led_brightness_decodes (st : DeviceStatus) :
  (forall z : Z,
     0 <= z <= 2 ->
     data st !! "led_brightness" = Some (VInt z) ->
     exists l, LedBrightness_value l = z
               /\ AirPurifierZA1Status.led_brightness st = Ok (VLed l))
  /\ (data st !! "led_brightness" = Some (VInt 1) ->
      AirPurifierZA1Status.led_brightness st = Ok (VLed Dim))
  /\ (forall z : Z,
        ~ (0 <= z <= 2) ->
        data st !! "led_brightness" = Some (VInt z) ->
        AirPurifierZA1Status.led_brightness st = Ok VNone)
  /\ (data st !! "led_brightness" = Some VNone ->
      AirPurifierZA1Status.led_brightness st = Ok VNone).
Proof.
  unfold AirPurifierZA1Status.led_brightness, getitem.
  repeat split.
  - intros z Hz H. rewrite H.
    assert (z = 0 \/ z = 1 \/ z = 2) as [-> | [-> | ->]] by lia.
    + exists Bright. split; reflexivity.
    + exists Dim. split; reflexivity.
    + exists Off. split; reflexivity.
  - intros H. rewrite H. reflexivity.
  - intros z Hz H. rewrite H.
    cbn [rbind is_not_None LedBrightness_call member_by_value
         LedBrightness_members List.find eq_int LedBrightness_value].
    destruct (Z.eqb_spec z 0); [lia|].
    destruct (Z.eqb_spec z 1); [lia|].
    destruct (Z.eqb_spec z 2); [lia|].
    reflexivity.
  - intros H. rewrite H. reflexivity.
Qed.

(** 1 decodes to Dim; 5 and a raw [None] give [None]. *)
Lemma led_brightness_decodes_witness :
  AirPurifierZA1Status.led_brightness (status_of {[ "led_brightness" := VInt 1 ]})
    = Ok (VLed Dim)
  /\ AirPurifierZA1Status.led_brightness (status_of {[ "led_brightness" := VInt 5 ]})
    = Ok VNone
  /\ AirPurifierZA1Status.led_brightness (status_of {[ "led_brightness" := VNone ]})
    = Ok VNone.
Proof.
  split; [| split].
  - apply (led_brightness_decodes (status_of {[ "led_brightness" := VInt 1 ]})).
    vm_compute. reflexivity.
  - apply (led_brightness_decodes (status_of {[ "led_brightness" := VInt 5 ]})) with (z := 5);
      [lia | vm_compute; reflexivity].
  - apply (led_brightness_decodes (status_of {[ "led_brightness" := VNone ]})).
    vm_compute. reflexivity.
Defined.

(** Rounding to nearest: [div_round_half_even a b] is within half a
    unit of [a / b]. *)
Lemma div_round_half_even_nearest (a b : Z) :
  0 < b -> 2 * Z.abs (div_round_half_even a b * b - a) <= b.
Proof.
  intros Hb. unfold div_round_half_even.
  pose proof (Z.div_mod a b ltac:(lia)) as Hdm.
  pose proof (Z.mod_pos_bound a b Hb) as Hr.
  destruct (Z.compare_spec (2 * (a mod b)) b) as [He | Hl | Hg];
    [destruct (Z.even (a / b)) | | ]; nia.
Qed.

(** Ties go to the even neighbour. *)
Lemma div_round_half_even_tie (a b : Z) :
  0 < b ->
  2 * Z.abs (div_round_half_even a b * b - a) = b ->
  Z.even (div_round_half_even a b) = true.
Proof.
  intros Hb. unfold div_round_half_even.
  pose proof (Z.div_mod a b ltac:(lia)) as Hdm.
  pose proof (Z.mod_pos_bound a b Hb) as Hr.
  destruct (Z.compare_spec (2 * (a mod b)) b) as [He | Hl | Hg].
  - intros _. destruct (Z.even (a / b)) eqn:Hev; [exact Hev|].
    rewrite Z.even_add, Hev. reflexivity.
  - intros H. nia.
  - intros H. nia.
Qed.

(** The tenths chosen for the magnitude [m * 2^e] are within half a
    tenth of it (compared after scaling by the power of two that clears
    the binary fraction). *)
Lemma nearest_tenths_within_half (m : positive) (e : Z) :
  2 * Z.abs (nearest_tenths m e * 2 ^ Z.max 0 (- e) - 10 * Zpos m * 2 ^ Z.max 0 e)
    <= 2 ^ Z.max 0 (- e).
Proof.
  destruct e as [|p|p]; cbn [nearest_tenths].
  - replace (Z.max 0 (- 0)) with 0 by lia.
    replace (Z.max 0 0) with 0 by lia.
    rewrite Z.pow_0_r. lia.
  - replace (Z.max 0 (- Z.pos p)) with 0 by lia.
    replace (Z.max 0 (Z.pos p)) with (Z.pos p) by lia.
    rewrite Z.pow_0_r. lia.
  - replace (Z.max 0 (- Z.neg p)) with (Z.pos p) by lia.
    replace (Z.max 0 (Z.neg p)) with 0 by lia.
    rewrite Z.pow_0_r, Z.mul_1_r.
    apply div_round_half_even_nearest. apply Z.pow_pos_nonneg; lia.
Qed.

(** When the magnitude lies exactly halfway between two tenths, the even
    one is chosen. *)
Lemma nearest_tenths_tie_even (m : positive) (e : Z) :
  2 * Z.abs (nearest_tenths m e * 2 ^ Z.max 0 (- e) - 10 * Zpos m * 2 ^ Z.max 0 e)
    = 2 ^ Z.max 0 (- e) ->
  Z.even (nearest_tenths m e) = true.
Proof.
  destruct e as [|p|p]; cbn [nearest_tenths].
  - replace (Z.max 0 (- 0)) with 0 by lia.
    replace (Z.max 0 0) with 0 by lia.
    rewrite Z.pow_0_r. lia.
  - replace (Z.max 0 (- Z.pos p)) with 0 by lia.
    replace (Z.max 0 (Z.pos p)) with (Z.pos p) by lia.
    rewrite Z.pow_0_r. lia.
  - replace (Z.max 0 (- Z.neg p)) with (Z.pos p) by lia.
    replace (Z.max 0 (Z.neg p)) with 0 by lia.
    rewrite Z.pow_0_r, Z.mul_1_r.
    apply div_round_half_even_tie. apply Z.pow_pos_nonneg; lia.
Qed.

(** *** The binary64 division behind [float_of_tenths]

    [float_of_tenths] reads the decimal [n / 10] back with the
    Standard Library's specification of the binary64 division.  The
    lemmas below follow that division step by step and establish what
    it returns. *)

(** The number of bits of a positive integer. *)
Lemma digits2_pos_log2 (p : positive) :
  Zpos (digits2_pos p) = Z.log2 (Zpos p) + 1.
Proof.
  induction p as [p IH | p IH |]; cbn [digits2_pos].
  - rewrite Pos2Z.inj_succ, IH. change (Z.pos p~1) with (2 * Z.pos p + 1).
    rewrite Z.log2_succ_double by lia. lia.
  - rewrite Pos2Z.inj_succ, IH. change (Z.pos p~0) with (2 * Z.pos p).
    rewrite Z.log2_double by lia. lia.
  - reflexivity.
Qed.

Lemma Zdigits2_bounds (n d : Z) :
  0 < n -> 0 < d -> (Zdigits2 n = d <-> 2 ^ (d - 1) <= n < 2 ^ d).
Proof.
  intros Hn Hd. destruct n as [|p|p]; try lia. cbn [Zdigits2].
  rewrite digits2_pos_log2. split.
  - intros <-. replace (Z.log2 (Z.pos p) + 1 - 1) with (Z.log2 (Z.pos p)) by lia.
    replace (Z.log2 (Z.pos p) + 1) with (Z.succ (Z.log2 (Z.pos p))) by lia.
    apply Z.log2_spec. lia.
  - intros H. assert (Z.log2 (Z.pos p) = d - 1); [|lia].
    apply Z.log2_unique; [lia|]. replace (Z.succ (d - 1)) with d by lia. exact H.
Qed.

(** One step of the right shift: the low bit moves to the round bit,
    the old round bit joins the sticky bit. *)
Lemma shr_1_spec (m : Z) (r s : bool) :
  0 <= m ->
  shr_1 {| shr_m := m; shr_r := r; shr_s := s |}
  = {| shr_m := Z.div2 m; shr_r := Z.odd m; shr_s := r || s |}.
Proof.
  intros Hm. destruct m as [|[p|p|]|p]; try lia; reflexivity.
Qed.

Lemma shr_1_double (M : Z) :
  0 <= M ->
  shr_1 {| shr_m := M * 2; shr_r := false; shr_s := false |}
  = {| shr_m := M; shr_r := false; shr_s := false |}.
Proof.
  intros HM. rewrite shr_1_spec by lia.
  rewrite Z.div2_div, Z.div_mul by lia.
  rewrite Z.odd_mul. cbn [Z.odd]. now rewrite Bool.andb_false_r.
Qed.

Lemma pow2_xO (p : positive) : 2 ^ Z.pos p~0 = 2 ^ Z.pos p * 2 ^ Z.pos p.
Proof.
  replace (Z.pos p~0) with (Z.pos p + Z.pos p) by lia.
  apply Z.pow_add_r; lia.
Qed.

Lemma pow2_xI (p : positive) : 2 ^ Z.pos p~1 = 2 ^ Z.pos p * 2 ^ Z.pos p * 2.
Proof.
  replace (Z.pos p~1) with (Z.pos p + Z.pos p + 1) by lia.
  rewrite !Z.pow_add_r, Z.pow_1_r by lia. reflexivity.
Qed.

(** Shifting out [p] zero bits is exact. *)
Lemma iter_shr_1_pow2 (p : positive) (m : Z) :
  0 <= m ->
  SpecFloat.iter_pos shr_1 p
    {| shr_m := m * 2 ^ Zpos p; shr_r := false; shr_s := false |}
  = {| shr_m := m; shr_r := false; shr_s := false |}.
Proof.
  revert m. induction p as [p IH | p IH |]; intros m Hm; cbn [SpecFloat.iter_pos].
  - rewrite pow2_xI.
    replace (m * (2 ^ Z.pos p * 2 ^ Z.pos p * 2))
      with (m * 2 ^ Z.pos p * 2 ^ Z.pos p * 2) by ring.
    rewrite shr_1_double by (repeat apply Z.mul_nonneg_nonneg; lia).
    rewrite IH by (apply Z.mul_nonneg_nonneg; lia). now apply IH.
  - rewrite pow2_xO.
    replace (m * (2 ^ Z.pos p * 2 ^ Z.pos p))
      with (m * 2 ^ Z.pos p * 2 ^ Z.pos p) by ring.
    rewrite IH by (apply Z.mul_nonneg_nonneg; lia). now apply IH.
  - rewrite Z.pow_1_r. now apply shr_1_double.
Qed.

Lemma fexp_val (z : Z) : fexp prec emax z = Z.max (z - 53) (-1074).
Proof. reflexivity. Qed.

Lemma div_eucl_div_mod (a b : Z) : Z.div_eucl a b = (a / b, a mod b).
Proof. unfold Z.div, Z.modulo. now destruct (Z.div_eucl a b). Qed.

Lemma shr_loc_roundtrip (m : Z) (l : location) :
  shr_m (shr_record_of_loc m l) = m
  /\ loc_of_shr_record (shr_record_of_loc m l) = l.
Proof. destruct l as [|[| |]]; split; reflexivity. Qed.

(** No shift is needed for a mantissa of 53 bits. *)
Lemma shr_fexp_53 (m e : Z) (l : location) :
  Zdigits2 m = 53 -> -1074 <= e ->
  shr_fexp prec emax m e l = (shr_record_of_loc m l, e).
Proof.
  intros Hd He. unfold shr_fexp. rewrite Hd, fexp_val.
  replace (Z.max (53 + e - 53) (-1074) - e) with 0 by lia. reflexivity.
Qed.

(** One bit is shifted out of a mantissa of 54 bits. *)
Lemma shr_fexp_54 (m e : Z) (l : location) :
  Zdigits2 m = 54 -> -1075 <= e ->
  shr_fexp prec emax m e l = (shr_1 (shr_record_of_loc m l), e + 1).
Proof.
  intros Hd He. unfold shr_fexp. rewrite Hd, fexp_val.
  replace (Z.max (54 + e - 53) (-1074) - e) with 1 by lia. reflexivity.
Qed.

(** The last two steps of [binary_round_aux] when the rounded mantissa
    still has 53 bits. *)
Lemma binary_round_aux_fits (sx : bool) (mx ex : Z) (lx : location)
    (mrs : shr_record) (e1 : Z) (p : positive) :
  shr_fexp prec emax mx ex lx = (mrs, e1) ->
  round_nearest_even (shr_m mrs) (loc_of_shr_record mrs) = Zpos p ->
  Zdigits2 (Zpos p) = 53 ->
  -1074 <= e1 <= 971 ->
  binary_round_aux prec emax sx mx ex lx = S754_finite sx p e1.
Proof.
  intros Hs Hr Hd He. unfold binary_round_aux. rewrite Hs, Hr.
  rewrite (shr_fexp_53 _ _ _ Hd) by lia. cbn [shr_record_of_loc shr_m].
  destruct (Z.leb_spec e1 (emax - prec)) as [_|H]; [reflexivity|].
  unfold emax, prec in H. lia.
Qed.

(** ... and when rounding up carried into a 54th bit. *)
Lemma binary_round_aux_carry (sx : bool) (mx ex : Z) (lx : location)
    (mrs : shr_record) (e1 : Z) :
  shr_fexp prec emax mx ex lx = (mrs, e1) ->
  round_nearest_even (shr_m mrs) (loc_of_shr_record mrs) = 2 ^ 53 ->
  -1075 <= e1 <= 970 ->
  binary_round_aux prec emax sx mx ex lx
    = S754_finite sx (Z.to_pos (2 ^ 52)) (e1 + 1).
Proof.
  intros Hs Hr He. unfold binary_round_aux. rewrite Hs, Hr.
  rewrite shr_fexp_54 by (reflexivity || lia).
  cbn [shr_record_of_loc]. rewrite shr_1_spec by lia.
  cbn [shr_m]. change (Z.div2 (2 ^ 53)) with (Z.pos (Z.to_pos (2 ^ 52))).
  cbv iota.
  destruct (Z.leb_spec (e1 + 1) (emax - prec)) as [_|H]; [reflexivity|].
  unfold emax, prec in H. lia.
Qed.

(** The quotient step of the division by 10, for a dividend of [d] bits:
    the dividend is scaled to 57 bits when it is shorter. *)
Lemma SFdiv_core_tenths_short (n : positive) (d : Z) :
  Zdigits2 (Zpos n) = d -> d <= 56 ->
  SFdiv_core_binary prec emax (Zpos n) 0 10 0
  = ((Zpos n * 2 ^ (57 - d)) / 10, d - 57,
     new_location 10 ((Zpos n * 2 ^ (57 - d)) mod 10)).
Proof.
  intros Hd Hle. assert (0 < d) by (subst d; cbn; lia).
  unfold SFdiv_core_binary.
  change (Zdigits2 10) with 4. rewrite Hd, fexp_val.
  replace (Z.min (Z.max (d + 0 - (4 + 0) - 53) (-1074)) (0 - 0)) with (d - 57) by lia.
  replace (0 - 0 - (d - 57)) with (57 - d) by lia.
  destruct (57 - d) as [|k|k] eqn:Hk; try lia.
  rewrite Z.shiftl_mul_pow2 by lia.
  rewrite div_eucl_div_mod. reflexivity.
Qed.

Lemma SFdiv_core_tenths_long (n : positive) (d : Z) :
  Zdigits2 (Zpos n) = d -> 57 <= d ->
  SFdiv_core_binary prec emax (Zpos n) 0 10 0
  = (Zpos n / 10, 0, new_location 10 (Zpos n mod 10)).
Proof.
  intros Hd Hle. unfold SFdiv_core_binary.
  change (Zdigits2 10) with 4. rewrite Hd, fexp_val.
  replace (Z.min (Z.max (d + 0 - (4 + 0) - 53) (-1074)) (0 - 0)) with 0 by lia.
  change (0 - 0 - 0) with 0. cbv iota.
  rewrite div_eucl_div_mod. reflexivity.
Qed.

Lemma new_location_10 (r : Z) :
  new_location 10 r
  = if r =? 0 then loc_Exact else loc_Inexact (2 * r ?= 10).
Proof. reflexivity. Qed.

(** Rounding the quotient [q] with remainder [r] of a division by 10. *)
Lemma round_tenths (q r : Z) :
  0 <= r < 10 ->
  let m1 := round_nearest_even q (new_location 10 r) in
  (m1 = q \/ m1 = q + 1)
  /\ 2 * Z.abs (10 * m1 - (10 * q + r)) <= 10
  /\ (2 * Z.abs (10 * m1 - (10 * q + r)) = 10 -> Z.even m1 = true).
Proof.
  intros Hr. rewrite new_location_10. cbv zeta.
  destruct (Z.eqb_spec r 0) as [->|Hr0]; cbn [round_nearest_even].
  - split; [left; reflexivity|]. split; lia.
  - destruct (Z.compare_spec (2 * r) 10) as [He|Hl|Hg].
    + destruct (Z.even q) eqn:Hev.
      * split; [left; reflexivity|]. split; [lia | intros _; exact Hev].
      * split; [right; reflexivity|]. split; [lia|].
        intros _. rewrite Z.even_add, Hev. reflexivity.
    + split; [left; reflexivity|]. split; lia.
    + split; [right; reflexivity|]. split; lia.
Qed.

(** The same after one more bit of [q] has been shifted out. *)
Lemma round_tenths_shifted (q r : Z) :
  0 <= q -> 0 <= r < 10 ->
  let mrs := shr_1 (shr_record_of_loc q (new_location 10 r)) in
  let m1 := round_nearest_even (shr_m mrs) (loc_of_shr_record mrs) in
  (m1 = Z.div2 q \/ m1 = Z.div2 q + 1)
  /\ 2 * Z.abs (20 * m1 - (10 * q + r)) <= 20
  /\ (2 * Z.abs (20 * m1 - (10 * q + r)) = 20 -> Z.even m1 = true)
  /\ (m1 = Z.div2 q -> 20 * m1 <= 10 * q + r).
Proof.
  intros Hq Hr. rewrite new_location_10. cbv zeta.
  pose proof (Z.div2_odd q) as Hq2.
  assert (forall l,
             shr_1 (shr_record_of_loc q l)
             = {| shr_m := Z.div2 q; shr_r := Z.odd q;
                  shr_s := match l with loc_Exact => false | _ => true end |}) as Hshr.
  { intros [|[| |]]; cbn [shr_record_of_loc]; rewrite shr_1_spec by lia; reflexivity. }
  rewrite Hshr. cbn [shr_m].
  destruct (Z.eqb_spec r 0) as [->|Hr0];
    destruct (Z.odd q) eqn:Hodd; cbn [loc_of_shr_record round_nearest_even Z.b2z] in *.
  - destruct (Z.even (Z.div2 q)) eqn:Hev.
    + repeat split; try lia. intros _. exact Hev.
    + repeat split; try lia. intros _. rewrite Z.even_add, Hev. reflexivity.
  - repeat split; lia.
  - repeat split; lia.
  - repeat split; lia.
Qed.

Lemma pow2_52 : 2 ^ 52 = 4503599627370496. Proof. reflexivity. Qed.
Lemma pow2_53 : 2 ^ 53 = 9007199254740992. Proof. reflexivity. Qed.
Lemma pow2_56 : 2 ^ 56 = 72057594037927936. Proof. reflexivity. Qed.

(** Dividing a positive integer below [2^56] by 10 in binary64 yields
    the float nearest to the quotient: a 53-bit mantissa [m'] and an
    exponent [e'] with [m' * 2^e'] within half a unit in the last
    place of [n / 10], the even mantissa on a tie, and within half of
    the finer unit below a power of two. *)
Lemma SFdiv_tenths_nearest (s : bool) (n : positive) :
  Zpos n < 2 ^ 56 ->
  exists (m' : positive) (e' : Z),
    SFdiv prec emax (S754_finite s n 0) (S754_finite false 10 0)
      = S754_finite s m' e'
    /\ 2 ^ 52 <= Zpos m' < 2 ^ 53
    /\ -56 <= e' <= 0
    /\ 2 * Z.abs (10 * Zpos m' - Zpos n * 2 ^ (- e')) <= 10
    /\ (2 * Z.abs (10 * Zpos m' - Zpos n * 2 ^ (- e')) = 10 ->
        Z.even (Zpos m') = true)
    /\ (Zpos m' = 2 ^ 52 ->
        Zpos n * 2 ^ (- e') < 10 * Zpos m' ->
        4 * Z.abs (10 * Zpos m' - Zpos n * 2 ^ (- e')) <= 10).
Proof.
  intros Hn. rewrite pow2_52, pow2_53. rewrite pow2_56 in Hn.
  remember (Zdigits2 (Zpos n)) as d eqn:Hd. symmetry in Hd.
  assert (0 < d) as Hd0 by (subst d; cbn; lia).
  pose proof (proj1 (Zdigits2_bounds (Zpos n) d ltac:(lia) Hd0) Hd) as [Hlo Hhi].
  assert (d <= 56) as Hd56.
  { destruct (Z.le_gt_cases d 56) as [H|H]; [exact H|].
    assert (2 ^ 56 <= 2 ^ (d - 1)) by (apply Z.pow_le_mono_r; lia).
    rewrite pow2_56 in *. lia. }
  (* the dividend scaled to 57 bits, and to 56 *)
  set (M' := Zpos n * 2 ^ (56 - d)).
  assert (Zpos n * 2 ^ (57 - d) = 2 * M') as HM.
  { unfold M'. replace (57 - d) with (Z.succ (56 - d)) by lia.
    rewrite Z.pow_succ_r by lia. ring. }
  assert (72057594037927936 <= 2 * M' < 144115188075855872) as HMb.
  { rewrite <- HM.
    assert (2 ^ (d - 1) * 2 ^ (57 - d) = 72057594037927936) as E1.
    { rewrite <- Z.pow_add_r by lia. replace (d - 1 + (57 - d)) with 56 by lia.
      reflexivity. }
    assert (2 ^ d * 2 ^ (57 - d) = 144115188075855872) as E2.
    { rewrite <- Z.pow_add_r by lia. replace (d + (57 - d)) with 57 by lia.
      reflexivity. }
    assert (0 < 2 ^ (57 - d)) by (apply Z.pow_pos_nonneg; lia).
    nia. }
  unfold SFdiv. rewrite (SFdiv_core_tenths_short n d Hd Hd56). cbv beta iota.
  replace (xorb s false) with s by (destruct s; reflexivity).
  rewrite HM.
  set (q := 2 * M' / 10). set (r := (2 * M') mod 10).
  assert (2 * M' = 10 * q + r /\ 0 <= r < 10) as [Hqr Hr].
  { unfold q, r. split; [apply Z.div_mod; lia | apply Z.mod_pos_bound; lia]. }
  assert (- (d - 57) = 57 - d) as Ee1 by lia.
  assert (- (d - 57 + 1) = 56 - d) as Ee2 by lia.
  destruct (Z.lt_ge_cases q 9007199254740992) as [Hq53 | Hq54].
  - (* the quotient has 53 bits *)
    assert (Zdigits2 q = 53) as Hdq.
    { apply Zdigits2_bounds; [lia | lia |]. rewrite pow2_53.
      change (2 ^ (53 - 1)) with 4503599627370496. lia. }
    pose proof (shr_fexp_53 q (d - 57) (new_location 10 r) Hdq ltac:(lia)) as Hs.
    destruct (round_tenths q r Hr) as (Hm1 & Hnear & Htie).
    destruct (shr_loc_roundtrip q (new_location 10 r)) as [Hrm Hrl].
    set (m1 := round_nearest_even q (new_location 10 r)) in *.
    destruct (Z.lt_ge_cases m1 9007199254740992) as [Hfit | Hcarry].
    + exists (Z.to_pos m1), (d - 57).
      assert (Zpos (Z.to_pos m1) = m1) as Ep by (apply Z2Pos.id; lia).
      rewrite Ep, Ee1, HM, Hqr.
      split; [| repeat split; try lia; exact Htie].
      apply (binary_round_aux_fits s q (d - 57) _ _ _ _ Hs); [| | lia].
      * rewrite Hrm, Hrl. symmetry. exact Ep.
      * rewrite Ep. apply Zdigits2_bounds; [lia | lia |]. rewrite pow2_53.
        change (2 ^ (53 - 1)) with 4503599627370496. lia.
    + assert (m1 = 2 ^ 53) as Em1 by (rewrite pow2_53; lia).
      exists (Z.to_pos (2 ^ 52)), (d - 57 + 1).
      change (Zpos (Z.to_pos (2 ^ 52))) with 4503599627370496.
      rewrite Ee2. fold M'.
      split; [| repeat split; try lia].
      apply (binary_round_aux_carry s q (d - 57) _ _ _ Hs); [| lia].
      rewrite Hrm, Hrl. exact Em1.
  - (* the quotient has 54 bits *)
    assert (Zdigits2 q = 54) as Hdq.
    { apply Zdigits2_bounds; [lia | lia |].
      change (2 ^ (54 - 1)) with 9007199254740992.
      change (2 ^ 54) with 18014398509481984. lia. }
    pose proof (shr_fexp_54 q (d - 57) (new_location 10 r) Hdq ltac:(lia)) as Hs.
    destruct (round_tenths_shifted q r ltac:(lia) Hr) as (Hm1 & Hnear & Htie & Hdown).
    pose proof (Z.div2_odd q) as Hq2.
    set (mrs := shr_1 (shr_record_of_loc q (new_location 10 r))) in *.
    set (m1 := round_nearest_even (shr_m mrs) (loc_of_shr_record mrs)) in *.
    assert (0 <= Z.b2z (Z.odd q) <= 1) as Hb by (destruct (Z.odd q); cbn; lia).
    exists (Z.to_pos m1), (d - 57 + 1).
    assert (Zpos (Z.to_pos m1) = m1) as Ep by (apply Z2Pos.id; lia).
    rewrite Ep, Ee2. fold M'.
    split; [| repeat split; try lia].
    + apply (binary_round_aux_fits s q (d - 57) _ _ _ _ Hs); [| | lia].
      * symmetry. exact Ep.
      * rewrite Ep. apply Zdigits2_bounds; [lia | lia |]. rewrite pow2_53.
        change (2 ^ (53 - 1)) with 4503599627370496. lia.
    + intros H. apply Htie. lia.
Qed.

(** Dividing [10 * m * 2^e] by 10 gives back [m * 2^e] exactly, for a
    53-bit mantissa [m] and an exponent [e >= 0]. *)
Lemma SFdiv_tenths_exact (s : bool) (m : positive) (e : Z) :
  Zdigits2 (Zpos m) = 53 -> 0 <= e <= 971 ->
  SFdiv prec emax (S754_finite s (Z.to_pos (10 * Zpos m * 2 ^ e)) 0)
                  (S754_finite false 10 0)
  = S754_finite s m e.
Proof.
  intros Hdm He.
  assert (0 < 2 ^ e) as Hpe by (apply Z.pow_pos_nonneg; lia).
  pose proof (proj1 (Zdigits2_bounds (Zpos m) 53 ltac:(lia) ltac:(lia)) Hdm) as Hm.
  change (2 ^ (53 - 1)) with 4503599627370496 in Hm. rewrite pow2_53 in Hm.
  set (N := 10 * Zpos m * 2 ^ e).
  assert (0 < N) as HN by (unfold N; nia).
  assert (Zpos (Z.to_pos N) = N) as EN by (apply Z2Pos.id; lia).
  remember (Zdigits2 (Zpos (Z.to_pos N))) as d eqn:Hd. symmetry in Hd.
  assert (0 < d) as Hd0 by (subst d; cbn; lia).
  pose proof (proj1 (Zdigits2_bounds (Zpos (Z.to_pos N)) d (Pos2Z.is_pos _) Hd0) Hd)
    as [Hlo Hhi].
  rewrite EN in Hlo, Hhi.
  unfold SFdiv.
  replace (xorb s false) with s by (destruct s; reflexivity).
  assert (N / 10 = Zpos m * 2 ^ e /\ N mod 10 = 0) as [HNq HNr].
  { unfold N. replace (10 * Z.pos m * 2 ^ e) with (Z.pos m * 2 ^ e * 10) by ring.
    split; [apply Z.div_mul; lia | apply Z.mod_mul; lia]. }
  destruct (Z.le_gt_cases 57 d) as [Hlong | Hshort].
  - rewrite (SFdiv_core_tenths_long _ d Hd Hlong). cbv beta iota.
    rewrite EN, HNq, HNr. change (new_location 10 0) with loc_Exact.
    assert (Zdigits2 (Zpos m * 2 ^ e) = 53 + e) as Hdq.
    { apply Zdigits2_bounds; [nia | lia |].
      replace (53 + e - 1) with (52 + e) by lia.
      rewrite !Z.pow_add_r by lia. rewrite pow2_52, pow2_53. nia. }
    assert (shr_fexp prec emax (Zpos m * 2 ^ e) 0 loc_Exact
            = ({| shr_m := Zpos m; shr_r := false; shr_s := false |}, e)) as Hs.
    { unfold shr_fexp. rewrite Hdq, fexp_val.
      replace (Z.max (53 + e + 0 - 53) (-1074) - 0) with e by lia.
      cbn [shr_record_of_loc]. destruct e as [|p|p]; [| | lia].
      - rewrite Z.pow_0_r, Z.mul_1_r. reflexivity.
      - cbn [shr]. rewrite iter_shr_1_pow2 by lia. reflexivity. }
    apply (binary_round_aux_fits s _ 0 _ _ _ _ Hs); [reflexivity | exact Hdm | lia].
  - (* only for e = 0 and a 56-bit dividend *)
    assert (d = 56 /\ e = 0) as [-> ->].
    { assert (2 ^ 55 <= N).
      { unfold N. change (2 ^ 55) with 36028797018963968. nia. }
      assert (55 < d).
      { destruct (Z.le_gt_cases d 55) as [H1|H1]; [|lia].
        assert (2 ^ d <= 2 ^ 55) by (apply Z.pow_le_mono_r; lia). lia. }
      split; [lia|].
      destruct (Z.eq_dec e 0) as [E|E]; [exact E|].
      assert (2 ^ 1 <= 2 ^ e) by (apply Z.pow_le_mono_r; lia).
      assert (d = 56) as -> by lia. rewrite pow2_56 in Hhi.
      change (2 ^ 1) with 2 in *. unfold N in Hhi. nia. }
    rewrite (SFdiv_core_tenths_short _ 56 Hd ltac:(lia)). cbv beta iota.
    rewrite EN. change (2 ^ (57 - 56)) with 2.
    assert (N * 2 / 10 = Zpos m * 2 /\ (N * 2) mod 10 = 0) as [Hq Hr].
    { unfold N. rewrite Z.pow_0_r.
      replace (10 * Z.pos m * 1 * 2) with (Z.pos m * 2 * 10) by ring.
      split; [apply Z.div_mul; lia | apply Z.mod_mul; lia]. }
    rewrite Hq, Hr. change (new_location 10 0) with loc_Exact.
    assert (Zdigits2 (Zpos m * 2) = 54) as Hdq.
    { apply Zdigits2_bounds; [lia | lia |].
      change (2 ^ (54 - 1)) with 9007199254740992.
      change (2 ^ 54) with 18014398509481984. lia. }
    pose proof (shr_fexp_54 (Zpos m * 2) (56 - 57) loc_Exact Hdq ltac:(lia)) as Hs.
    cbn [shr_record_of_loc] in Hs. rewrite shr_1_double in Hs by lia.
    apply (binary_round_aux_fits s _ _ _ _ _ _ Hs); [reflexivity | exact Hdm | lia].
Qed.

(** What a finite float is made of: at most 53 bits of mantissa, and
    exactly 53 when the exponent is not negative. *)
Lemma finite_float_shape (f : float) (s : bool) (m : positive) (e : Z) :
  Prim2SF f = S754_finite s m e ->
  Zpos m < 2 ^ 53 /\ -1074 <= e <= 971 /\ (0 <= e -> Zdigits2 (Zpos m) = 53).
Proof.
  intros H. pose proof (Prim2SF_valid f) as Hv. rewrite H in Hv.
  cbn [valid_binary] in Hv. unfold bounded, canonical_mantissa in Hv.
  apply andb_true_iff in Hv as [Hc Hb].
  apply Z.eqb_eq in Hc. apply Z.leb_le in Hb.
  rewrite fexp_val in Hc. unfold emax, prec in Hb.
  assert (0 < Zpos (digits2_pos m)) as Hd0 by lia.
  pose proof (proj1 (Zdigits2_bounds (Zpos m) (Zpos (digits2_pos m))
                       (Pos2Z.is_pos _) Hd0) eq_refl) as [_ Hhi].
  assert (Zpos (digits2_pos m) <= 53) as Hd53 by lia.
  assert (2 ^ Zpos (digits2_pos m) <= 2 ^ 53) by (apply Z.pow_le_mono_r; lia).
  split; [lia|]. split; [lia|]. intros He. cbn [Zdigits2]. lia.
Qed.

(** A float whose exponent is not negative is an integer, and rounding
    returns it unchanged. *)
Lemma float_round1_integer (f : float) (s : bool) (m : positive) (e : Z) :
  Prim2SF f = S754_finite s m e -> 0 <= e -> float_round1 f = f.
Proof.
  intros H He.
  destruct (finite_float_shape f s m e H) as (_ & Hb & Hd).
  unfold float_round1. rewrite H.
  assert (nearest_tenths m e = 10 * Zpos m * 2 ^ e) as ->
    by (destruct e; [reflexivity | reflexivity | lia]).
  assert (0 < 10 * Zpos m * 2 ^ e) as Hpos.
  { assert (0 < 2 ^ e) by (apply Z.pow_pos_nonneg; lia). nia. }
  rewrite <- (Z2Pos.id _ Hpos). cbn [float_of_tenths].
  rewrite (SFdiv_tenths_exact s m e (Hd He)) by lia.
  rewrite <- H. apply SF2Prim_Prim2SF.
Qed.

(** The tenths of a float with a negative exponent stay below [2^56]. *)
Lemma nearest_tenths_small (f : float) (s : bool) (m : positive) (e : Z) :
  Prim2SF f = S754_finite s m e -> e < 0 ->
  0 <= nearest_tenths m e < 2 ^ 56.
Proof.
  intros H He.
  destruct (finite_float_shape f s m e H) as (Hm & _ & _).
  rewrite pow2_53 in Hm. rewrite pow2_56.
  destruct e as [|p|p]; try lia. cbn [nearest_tenths].
  assert (2 <= 2 ^ Zpos p).
  { change 2 with (2 ^ 1) at 1. apply Z.pow_le_mono_r; lia. }
  pose proof (div_round_half_even_nearest (10 * Zpos m) (2 ^ Zpos p) ltac:(lia)).
  nia.
Qed.

(** A float with a negative exponent rounds to the binary64 number
    nearest to its tenths divided by 10, with its own sign. *)
Lemma float_round1_fraction (f : float) (s : bool) (m : positive) (e : Z) :
  Prim2SF f = S754_finite s m e -> e < 0 ->
  (nearest_tenths m e = 0 -> Prim2SF (float_round1 f) = S754_zero s)
  /\ (0 < nearest_tenths m e ->
      exists (m' : positive) (e' : Z),
        Prim2SF (float_round1 f) = S754_finite s m' e'
        /\ 2 ^ 52 <= Zpos m' < 2 ^ 53
        /\ -56 <= e' <= 0
        /\ 2 * Z.abs (10 * Zpos m' - nearest_tenths m e * 2 ^ (- e')) <= 10
        /\ (2 * Z.abs (10 * Zpos m' - nearest_tenths m e * 2 ^ (- e')) = 10 ->
            Z.even (Zpos m') = true)
        /\ (Zpos m' = 2 ^ 52 ->
            nearest_tenths m e * 2 ^ (- e') < 10 * Zpos m' ->
            4 * Z.abs (10 * Zpos m' - nearest_tenths m e * 2 ^ (- e')) <= 10)).
Proof.
  intros H He.
  pose proof (nearest_tenths_small f s m e H He) as Hn.
  unfold float_round1. rewrite H. split.
  - intros ->. cbn [float_of_tenths]. now apply Prim2SF_SF2Prim.
  - intros Hpos.
    destruct (nearest_tenths m e) as [|n|n] eqn:En; try lia.
    destruct (SFdiv_tenths_nearest s n ltac:(lia))
      as (m' & e' & Hdiv & Hm' & He' & Hnear & Htie & Hpow).
    exists m', e'. cbn [float_of_tenths]. rewrite Hdiv.
    split; [| repeat split; try lia; assumption].
    apply Prim2SF_SF2Prim. cbn [valid_binary]. unfold bounded, canonical_mantissa.
    apply andb_true_iff. split.
    + apply Z.eqb_eq. rewrite fexp_val.
      assert (Zdigits2 (Zpos m') = 53) as Hd.
      { apply Zdigits2_bounds; [lia | lia |].
        change (2 ^ (53 - 1)) with (2 ^ 52). exact Hm'. }
      cbn [Zdigits2] in Hd. rewrite Hd. lia.
    + apply Z.leb_le. unfold emax, prec. lia.
Qed.

(** C7: [temperature] returns the raw float rounded to one decimal
    place (21.449999 gives 21.4) and [None] for a raw [None].  For a
    finite raw float of sign [s] and exact value [m * 2^e]:
    the number [n] of tenths is the integer nearest to [10 * m * 2^e],
    the even one on a tie; when [e >= 0] the float is an integer and
    is returned unchanged; when [e < 0] the result is the zero of
    sign [s] if [n = 0], and otherwise the binary64 number of sign [s]
    nearest to [n / 10]: with mantissa [m'] of 53 bits and exponent
    [e'], [m' * 2^e'] is within half a unit in the last place of
    [n / 10] (the even mantissa on a tie, and within half of the finer
    unit just below a power of two).  Zeros, infinities and NaN are
    returned unchanged. *)
Theorem temperature_rounds_to_one_decimal (st : DeviceStatus) :
  (forall f : float,
     data st !! "temperature" = Some (VFloat f) ->
     AirPurifierZA1Status.temperature st = Ok (VFloat (float_round1 f)))
  /\ (forall (f : float) (s : bool) (m : positive) (e : Z),
        Prim2SF f = S754_finite s m e ->
        float_round1 f = float_of_tenths s (nearest_tenths m e)
        /\ 2 * Z.abs (nearest_tenths m e * 2 ^ Z.max 0 (- e)
                      - 10 * Zpos m * 2 ^ Z.max 0 e) <= 2 ^ Z.max 0 (- e)
        /\ (2 * Z.abs (nearest_tenths m e * 2 ^ Z.max 0 (- e)
                       - 10 * Zpos m * 2 ^ Z.max 0 e) = 2 ^ Z.max 0 (- e) ->
            Z.even (nearest_tenths m e) = true))
  /\ (forall (f : float) (s : bool) (m : positive) (e : Z),
        Prim2SF f = S754_finite s m e ->
        0 <= e ->
        float_round1 f = f)
  /\ (forall (f : float) (s : bool) (m : positive) (e : Z),
        Prim2SF f = S754_finite s m e ->
        e < 0 ->
        (nearest_tenths m e = 0 -> Prim2SF (float_round1 f) = S754_zero s)
        /\ (0 < nearest_tenths m e ->
            exists (m' : positive) (e' : Z),
              Prim2SF (float_round1 f) = S754_finite s m' e'
              /\ 2 ^ 52 <= Zpos m' < 2 ^ 53
              /\ -56 <= e' <= 0
              /\ 2 * Z.abs (10 * Zpos m' - nearest_tenths m e * 2 ^ (- e')) <= 10
              /\ (2 * Z.abs (10 * Zpos m' - nearest_tenths m e * 2 ^ (- e')) = 10 ->
                  Z.even (Zpos m') = true)
              /\ (Zpos m' = 2 ^ 52 ->
                  nearest_tenths m e * 2 ^ (- e') < 10 * Zpos m' ->
                  4 * Z.abs (10 * Zpos m' - nearest_tenths m e * 2 ^ (- e'))
                    <= 10)))
  /\ (forall f : float,
        (forall s m e, Prim2SF f <> S754_finite s m e) ->
        float_round1 f = f)
  /\ float_round1 21.449999 = 21.4%float
  /\ (data st !! "temperature" = Some VNone ->
      AirPurifierZA1Status.temperature st = Ok VNone).
Proof.
  unfold AirPurifierZA1Status.temperature, getitem.
  split; [| split; [| split; [| split; [| split; [| split]]]]].
  - intros f H. rewrite H. reflexivity.
  - intros f s m e H. split; [| split].
    + unfold float_round1. rewrite H. reflexivity.
    + apply nearest_tenths_within_half.
    + apply nearest_tenths_tie_even.
  - apply float_round1_integer.
  - apply float_round1_fraction.
  - intros f Hnf. unfold float_round1.
    destruct (Prim2SF f) as [b | b | | s m e] eqn:E; try reflexivity.
    now destruct (Hnf s m e).
  - vm_compute. reflexivity.
  - intros H. rewrite H. reflexivity.
Qed.

(** 21.449999 reads as 21.4, a raw [None] as [None]. *)
Lemma temperature_rounds_to_one_decimal_witness :
  AirPurifierZA1Status.temperature (status_of {[ "temperature" := VFloat 21.449999 ]})
    = Ok (VFloat 21.4)
  /\ AirPurifierZA1Status.temperature (status_of {[ "temperature" := VNone ]})
    = Ok VNone
  /\ (exists (m' : positive) (e' : Z),
        Prim2SF (float_round1 21.449999) = S754_finite false m' e'
        /\ 2 ^ 52 <= Zpos m' < 2 ^ 53
        /\ -56 <= e' <= 0
        /\ 2 * Z.abs (10 * Zpos m' - 214 * 2 ^ (- e')) <= 10).
Proof.
  split; [| split].
  - pose proof (temperature_rounds_to_one_decimal
                  (status_of {[ "temperature" := VFloat 21.449999 ]}))
      as (Hround & _ & _ & _ & _ & Hex & _).
    rewrite <- Hex. apply Hround. vm_compute. reflexivity.
  - apply (temperature_rounds_to_one_decimal (status_of {[ "temperature" := VNone ]})).
    vm_compute. reflexivity.
  - pose proof (temperature_rounds_to_one_decimal (status_of ∅))
      as (_ & _ & _ & Hfrac & _).
    destruct (proj2 (Hfrac 21.449999%float false 6037637968968594%positive (-48)
                       ltac:(vm_compute; reflexivity) ltac:(lia))
                ltac:(vm_compute; reflexivity))
      as (m' & e' & H1 & H2 & H3 & H4 & _).
    exists m', e'. repeat split; try lia; try exact H1.
    change (nearest_tenths 6037637968968594 (-48)) with 214 in H4. exact H4.
Defined.

(** C9: on a bag without the key "favorite_rpm", [favorite_rpm] returns
    [None] and does not raise. *)
Theorem favorite_rpm_missing_key (st : DeviceStatus) :
  data st !! "favorite_rpm" = None ->
  BasicAirPurifierMiotStatus.favorite_rpm st = Ok VNone.
Proof.
  intros H. unfold BasicAirPurifierMiotStatus.favorite_rpm, dict_get.
  rewrite H. reflexivity.
Qed.

(** A bag that only holds "power". *)
Lemma favorite_rpm_missing_key_witness :
  BasicAirPurifierMiotStatus.favorite_rpm (status_of {[ "power" := VBool true ]}) = Ok VNone.
Proof.
  apply (favorite_rpm_missing_key (status_of {[ "power" := VBool true ]})).
  vm_compute. reflexivity.
Defined.

(** An enumeration call returns a member or raises [ValueError]. *)
Lemma OperationMode_call_cases (v : PyVal) :
  (exists m, OperationMode_call v = Ok (VMode m))
  \/ OperationMode_call v = Raise (ValueError v "OperationMode").
Proof.
  unfold OperationMode_call.
  destruct v; try (left; eexists; reflexivity);
    destruct (member_by_value _ _ _); eauto.
Qed.

Lemma LedBrightness_call_cases (v : PyVal) :
  (exists l, LedBrightness_call v = Ok (VLed l))
  \/ LedBrightness_call v = Raise (ValueError v "LedBrightness").
Proof.
  unfold LedBrightness_call.
  destruct v; try (left; eexists; reflexivity);
    destruct (member_by_value _ _ _); eauto.
Qed.

(** A plain subscript [self.data[key]]. *)
Lemma getitem_missing (d : gmap string PyVal) (key : string) :
  d !! key = None -> getitem d key = Raise (KeyError key).
Proof. intros H. unfold getitem. now rewrite H. Qed.

Lemma getitem_None (d : gmap string PyVal) (key : string) :
  getitem d key = Ok VNone -> d !! key = Some VNone.
Proof. unfold getitem. destruct (d !! key); congruence. Qed.

(** C10 as stated fails: on a bag where "led_brightness" holds 5,
    [led_brightness] returns [None] although the key does not hold
    [None]. *)
Lemma led_brightness_absent_for_unknown_code :
  ~ only_favorite_rpm_tolerates_missing_key.
Proof.
  intros H.
  destruct (H A_led_brightness (status_of {[ "led_brightness" := VInt 5 ]})) as [_ Habs].
  assert (data (status_of {[ "led_brightness" := VInt 5 ]}) !! "led_brightness"
          = Some VNone) as Hnull.
  { apply Habs; [discriminate | vm_compute; reflexivity]. }
  vm_compute in Hnull. discriminate Hnull.
Qed.

(** C10, amended: [favorite_rpm] is the only accessor that tolerates a
    missing key; every other accessor raises [KeyError] on a bag without
    its key, and returns [None] only when the key is present and holds
    [None] or, for [led_brightness], holds a value that is not the code
    of a member. *)
Theorem only_favorite_rpm_tolerates_missing (a : Accessor) (self : DeviceStatus) :
  (data self !! accessor_key a = None ->
     (a = A_favorite_rpm -> read a self = Ok VNone)
     /\ (a <> A_favorite_rpm -> read a self = Raise (KeyError (accessor_key a))))
  /\ (a <> A_favorite_rpm ->
      read a self = Ok VNone ->
      data self !! accessor_key a = Some VNone
      \/ (a = A_led_brightness
          /\ exists v, data self !! "led_brightness" = Some v
                       /\ v <> VNone
                       /\ LedBrightness_call v = Raise (ValueError v "LedBrightness"))).
Proof.
  split.
  - intros Hmiss. split; intros Ha.
    + subst a. cbn in Hmiss |- *.
      unfold AirPurifierZA1Status.favorite_rpm, dict_get. now rewrite Hmiss.
    + destruct a; try congruence; cbn [read accessor_key] in *;
        first [ now apply getitem_missing
              | unfold AirPurifierZA1Status.power, AirPurifierZA1Status.is_on,
                  AirPurifierZA1Status.mode, AirPurifierZA1Status.buzzer,
                  AirPurifierZA1Status.temperature,
                  AirPurifierZA1Status.led_brightness;
                rewrite (getitem_missing _ _ Hmiss); reflexivity ].
  - intros Ha Hr.
    destruct a; try congruence; cbn [read accessor_key] in *;
      try (left; now apply getitem_None).
    + (* power *)
      unfold AirPurifierZA1Status.power, AirPurifierZA1Status.is_on, getitem in Hr.
      destruct (data self !! "power"); discriminate Hr.
    + (* mode *)
      unfold AirPurifierZA1Status.mode, getitem in Hr.
      destruct (data self !! "mode") as [v|]; [|discriminate Hr].
      cbn [rbind] in Hr.
      destruct (OperationMode_call_cases v) as [[m Hm] | Hm]; congruence.
    + (* buzzer *)
      unfold AirPurifierZA1Status.buzzer, getitem in Hr.
      destruct (data self !! "buzzer") as [v|] eqn:Hv; [|discriminate Hr].
      cbn [rbind] in Hr. destruct v; cbn in Hr; try discriminate Hr.
      left. reflexivity.
    + (* temperature *)
      unfold AirPurifierZA1Status.temperature, getitem in Hr.
      destruct (data self !! "temperature") as [v|] eqn:Hv; [|discriminate Hr].
      cbn [rbind] in Hr. destruct v; cbn in Hr; try discriminate Hr.
      left. reflexivity.
    + (* led_brightness *)
      unfold AirPurifierZA1Status.led_brightness, getitem in Hr.
      destruct (data self !! "led_brightness") as [v|] eqn:Hv; [|discriminate Hr].
      cbn [rbind] in Hr.
      destruct (is_not_None v) eqn:Hn.
      * right. split; [reflexivity|]. exists v.
        split; [reflexivity|]. split; [now destruct v|].
        destruct (LedBrightness_call_cases v) as [[l Hl] | Hl]; [|exact Hl].
        rewrite Hl in Hr. discriminate Hr.
      * left. destruct v; try discriminate Hn. reflexivity.
Qed.

(** The accessors on the empty bag. *)
Lemma only_favorite_rpm_tolerates_missing_witness :
  read A_favorite_rpm (status_of ∅) = Ok VNone
  /\ read A_child_lock (status_of ∅) = Raise (KeyError "child_lock")
  /\ read A_gesture_status (status_of ∅) = Raise (KeyError "gesture_status")
  /\ read A_led_brightness (status_of ∅) = Raise (KeyError "led_brightness").
Proof.
  split; [| split; [| split]].
  - apply (only_favorite_rpm_tolerates_missing A_favorite_rpm (status_of ∅));
      reflexivity.
  - apply (only_favorite_rpm_tolerates_missing A_child_lock (status_of ∅));
      [reflexivity | discriminate].
  - apply (only_favorite_rpm_tolerates_missing A_gesture_status (status_of ∅));
      [reflexivity | discriminate].
  - apply (only_favorite_rpm_tolerates_missing A_led_brightness (status_of ∅));
      [reflexivity | discriminate].
Defined.

(** ** The status read *)

(** The comprehension succeeds when every entry with code 0 carries a
    value. *)
Lemma dict_of_results_total (props : list PropertyResult) (acc : gmap string PyVal) :
  (forall p, p ∈ props -> prop_code p = 0 -> is_Some (prop_value p)) ->
  exists d, dict_of_results props acc = Ok d.
Proof.
  revert acc. induction props as [|p props IH]; intros acc Hwf.
  - exists acc. reflexivity.
  - cbn [dict_of_results].
    assert (exists v, stored_value p = Some v) as [v Hv].
    { unfold stored_value. destruct (Z.eqb_spec (prop_code p) 0) as [Hc|Hc].
      - destruct (Hwf p (list_elem_of_here _ _) Hc) as [v Hv]. eauto.
      - eauto. }
    unfold stored_value in Hv.
    destruct (prop_code p =? 0).
    + rewrite Hv. cbn [rbind]. apply IH.
      intros q Hq. apply Hwf. now apply list_elem_of_further.
    + cbn [rbind]. apply IH.
      intros q Hq. apply Hwf. now apply list_elem_of_further.
Qed.

(** Keys that no entry names keep what the accumulator held. *)
Lemma dict_of_results_other (props : list PropertyResult) (acc d : gmap string PyVal)
    (k : string) :
  dict_of_results props acc = Ok d ->
  k ∉ (prop_did <$> props) ->
  d !! k = acc !! k.
Proof.
  revert acc. induction props as [|p props IH]; intros acc Hd Hk.
  - cbn in Hd. congruence.
  - cbn [dict_of_results] in Hd.
    rewrite fmap_cons, not_elem_of_cons in Hk. destruct Hk as [Hne Hk].
    destruct (if prop_code p =? 0 then _ else _) as [v|e]; [|discriminate Hd].
    cbn [rbind] in Hd. rewrite (IH _ Hd Hk). now apply lookup_insert_ne.
Qed.

(** An entry that no later entry overrides is stored with its value. *)
Lemma dict_of_results_stored (l1 l2 : list PropertyResult) (p : PropertyResult)
    (acc d : gmap string PyVal) :
  dict_of_results (l1 ++ p :: l2) acc = Ok d ->
  prop_did p ∉ (prop_did <$> l2) ->
  d !! prop_did p = stored_value p.
Proof.
  revert acc. induction l1 as [|q l1 IH]; intros acc Hd Hlast.
  - cbn [app dict_of_results] in Hd. unfold stored_value.
    destruct (prop_code p =? 0).
    + destruct (prop_value p) as [v|]; [|discriminate Hd].
      cbn [rbind] in Hd. rewrite (dict_of_results_other _ _ _ _ Hd Hlast).
      apply lookup_insert_eq.
    + cbn [rbind] in Hd. rewrite (dict_of_results_other _ _ _ _ Hd Hlast).
      apply lookup_insert_eq.
  - cbn [app dict_of_results] in Hd.
    destruct (if prop_code q =? 0 then _ else _) as [v|e]; [|discriminate Hd].
    cbn [rbind] in Hd. exact (IH _ Hd Hlast).
Qed.

(** C8: [status] makes one bulk read and builds the bag from its
    entries.  When every entry with code 0 carries a value, the bag
    holds, under the logical name of an entry, the reported value if the
    code is 0 and [None] otherwise; with one entry per logical name this
    is so for every entry (an entry repeated later is replaced by the
    later one). *)
Theorem status_builds_bag (self : MiotDevice) (props : list PropertyResult)
    (log : list Call) :
  get_properties_reply self = Ok props ->
  (forall p, p ∈ props -> prop_code p = 0 -> is_Some (prop_value p)) ->
  exists st,
    AirPurifierZA1.status self log = (Ok st, (log ++ [GetPropertiesForMapping])%list)
    /\ (forall l1 p l2,
          props = (l1 ++ p :: l2)%list ->
          prop_did p ∉ (prop_did <$> l2) ->
          (prop_code p = 0 -> data st !! prop_did p = prop_value p)
          /\ (prop_code p <> 0 -> data st !! prop_did p = Some VNone))
    /\ (NoDup (prop_did <$> props) ->
        forall p, p ∈ props ->
          (prop_code p = 0 -> data st !! prop_did p = prop_value p)
          /\ (prop_code p <> 0 -> data st !! prop_did p = Some VNone)).
Proof.
  intros Hreply Hwf.
  destruct (dict_of_results_total props ∅ Hwf) as [d Hd].
  exists {| data := d |}.
  assert (forall l1 p l2,
             props = (l1 ++ p :: l2)%list ->
             prop_did p ∉ (prop_did <$> l2) ->
             (prop_code p = 0 -> d !! prop_did p = prop_value p)
             /\ (prop_code p <> 0 -> d !! prop_did p = Some VNone)) as Hlast.
  { intros l1 p l2 -> Hl.
    pose proof (dict_of_results_stored _ _ _ _ _ Hd Hl) as Hs.
    unfold stored_value in Hs.
    destruct (Z.eqb_spec (prop_code p) 0); split; intros; congruence. }
  split; [| split].
  - unfold AirPurifierZA1.status, cbind, get_properties_for_mapping, clift.
    rewrite Hreply, Hd. reflexivity.
  - exact Hlast.
  - intros Hnd p Hp.
    apply list_elem_of_split in Hp as (l1 & l2 & ->).
    apply (Hlast l1 p l2 eq_refl).
    rewrite fmap_app, fmap_cons in Hnd.
    apply NoDup_app in Hnd as (_ & _ & Hnd).
    now apply NoDup_cons in Hnd as [Hnotin _].
Qed.

(** The bag built from [reported]. *)
Lemma status_builds_bag_witness :
  exists st,
    AirPurifierZA1.status reporting_device [] = (Ok st, [GetPropertiesForMapping])
    /\ data st !! "power" = Some (VBool true)
    /\ data st !! "mode" = Some (VInt 2)
    /\ data st !! "tvoc" = Some VNone.
Proof.
  assert (forall p, p ∈ reported -> prop_code p = 0 -> is_Some (prop_value p)) as Hwf.
  { intros p Hp Hc. unfold reported in Hp.
    rewrite !elem_of_cons, elem_of_nil in Hp.
    destruct Hp as [-> | [-> | [-> | []]]]; cbn in Hc |- *; eauto; discriminate Hc. }
  assert (NoDup (prop_did <$> reported)) as Hnd.
  { cbn. repeat (apply NoDup_cons; split;
                 [rewrite ?elem_of_cons, elem_of_nil; intuition discriminate|]).
    apply NoDup_nil. exact I. }
  destruct (status_builds_bag reporting_device reported [] eq_refl Hwf)
    as (st & Hrun & _ & Hall).
  exists st. split; [exact Hrun|].
  split; [| split].
  - refine (proj1 (Hall Hnd
      {| prop_did := "power"; prop_siid := 2; prop_piid := 1;
         prop_code := 0; prop_value := Some (VBool true) |} _) eq_refl).
    unfold reported. rewrite !elem_of_cons. auto.
  - refine (proj1 (Hall Hnd
      {| prop_did := "mode"; prop_siid := 2; prop_piid := 5;
         prop_code := 0; prop_value := Some (VInt 2) |} _) eq_refl).
    unfold reported. rewrite !elem_of_cons. auto.
  - refine (proj2 (Hall Hnd
      {| prop_did := "tvoc"; prop_siid := 3; prop_piid := 1;
         prop_code := -4001; prop_value := None |} _) _); [|discriminate].
    unfold reported. rewrite !elem_of_cons. auto.
Defined.

(** ** Further properties of the commands and accessors *)

(** X1: power on and power off each make exactly one call to the client: the
    write of [True], respectively [False], to "power", with no check
    before it. *)
Theorem on_off_write_power (self : MiotDevice) (log : list Call) :
  BasicAirPurifierMiot.on self log
    = (set_property_reply self "power" (VBool true),
       (log ++ [SetProperty "power" (VBool true)])%list)
  /\ BasicAirPurifierMiot.off self log
    = (set_property_reply self "power" (VBool false),
       (log ++ [SetProperty "power" (VBool false)])%list).
Proof. split; apply set_property_run. Qed.

(** X2: [is_on] passes the raw boolean through and [power] mirrors it
    as "on" or "off". *)
Theorem power_mirrors_is_on (st : DeviceStatus) (b : bool) :
  data st !! "power" = Some (VBool b) ->
  BasicAirPurifierMiotStatus.is_on st = Ok (VBool b)
  /\ BasicAirPurifierMiotStatus.power st = Ok (VStr (if b then "on" else "off")).
Proof.
  intros H.
  unfold BasicAirPurifierMiotStatus.power, BasicAirPurifierMiotStatus.is_on, getitem.
  rewrite H. split; reflexivity.
Qed.

(** A device that is on. *)
Lemma power_mirrors_is_on_witness :
  BasicAirPurifierMiotStatus.is_on (status_of {[ "power" := VBool true ]}) = Ok (VBool true)
  /\ BasicAirPurifierMiotStatus.power (status_of {[ "power" := VBool true ]})
     = Ok (VStr "on").
Proof.
  apply (power_mirrors_is_on (status_of {[ "power" := VBool true ]}) true).
  vm_compute. reflexivity.
Defined.

(** X3: [set_led_brightness] writes the integer code of the member to
    "led_brightness", and [led_brightness] decodes that code back to the
    member. *)
Theorem set_led_brightness_roundtrip (self : MiotDevice) (l : LedBrightness)
    (log : list Call) :
  AirPurifierZA1.set_led_brightness self l log
    = (set_property_reply self "led_brightness" (VInt (LedBrightness_value l)),
       (log ++ [SetProperty "led_brightness" (VInt (LedBrightness_value l))])%list)
  /\ AirPurifierZA1Status.led_brightness
       (status_of {[ "led_brightness" := VInt (LedBrightness_value l) ]})
     = Ok (VLed l).
Proof.
  split; [apply set_property_run|].
  destruct l; vm_compute; reflexivity.
Qed.

(** ** All commands at once *)

Lemma log_not_extended (log : list Call) (c : Call) : log <> (log ++ [c])%list.
Proof.
  intros H. apply (f_equal length) in H. rewrite length_app in H. cbn in H. lia.
Qed.

(** What one call of a command does: it writes once, or it refuses its
    argument and calls nothing. *)
Lemma invoke_cases (self : MiotDevice) (c : Command) (log : list Call) :
  (exists k v,
     invoke self c log
       = (set_property_reply self k v, (log ++ [SetProperty k v])%list))
  \/ (exists msg,
        invoke self c log = (Raise (AirPurifierMiotException msg), log)
        /\ match c with
           | C_set_favorite_rpm rpm => ~ (300 <= rpm <= 2300 /\ rpm mod 10 = 0)
           | C_set_favorite_level level => ~ (0 <= level <= 14)
           | _ => False
           end).
Proof.
  destruct c; cbn [invoke];
    try (left; eexists _, _; apply set_property_run).
  - unfold AirPurifierZA1.set_favorite_rpm.
    destruct ((rpm <? 300) || (rpm >? 2300) || negb (rpm mod 10 =? 0)) eqn:G.
    + right. eexists. split; [reflexivity|].
      intros H. apply rpm_guard_spec in H. congruence.
    + left. eexists _, _. apply set_property_run.
  - unfold AirPurifierZA1.set_favorite_level.
    destruct ((level <? 0) || (level >? 14)) eqn:G.
    + right. eexists. split; [reflexivity|].
      intros H. apply level_guard_spec in H. congruence.
    + left. eexists _, _. apply set_property_run.
Qed.

(** X4: every command makes exactly one call to the client, a property
    write whose answer it returns unchanged, or none at all; it makes
    none only when [set_favorite_rpm] or [set_favorite_level] refuses
    its argument with [AirPurifierMiotException].  The calls logged
    before are kept. *)
Theorem commands_write_once_or_refuse (self : MiotDevice) (c : Command)
    (log : list Call) :
  (exists k v,
     invoke self c log
       = (set_property_reply self k v, (log ++ [SetProperty k v])%list))
  \/ (exists msg,
        invoke self c log = (Raise (AirPurifierMiotException msg), log)
        /\ match c with
           | C_set_favorite_rpm rpm => ~ (300 <= rpm <= 2300 /\ rpm mod 10 = 0)
           | C_set_favorite_level level => ~ (0 <= level <= 14)
           | _ => False
           end).
Proof. apply invoke_cases. Qed.

(** X5: a command succeeds only if the client acknowledged its write:
    when it returns a value, the log grew by one write and the value is
    the client's answer to that write.  With a client that fails, no
    command returns. *)
Theorem command_success_is_client_success (self : MiotDevice) (c : Command)
    (log log' : list Call) (r : PyVal) :
  invoke self c log = (Ok r, log') ->
  exists k v,
    log' = (log ++ [SetProperty k v])%list
    /\ set_property_reply self k v = Ok r.
Proof.
  intros H.
  destruct (invoke_cases self c log) as [(k & v & Hrun) | (msg & Hrun & _)];
    rewrite Hrun in H.
  - injection H as Hr Hlog. exists k, v. split; [symmetry; exact Hlog | exact Hr].
  - discriminate H.
Qed.

(** A successful [set_mode]. *)
Lemma command_success_is_client_success_witness :
  exists k v,
    [SetProperty "mode" (VInt 1)] = ([] ++ [SetProperty k v])%list
    /\ set_property_reply quiet_device k v = Ok (VStr "ok").
Proof.
  apply (command_success_is_client_success quiet_device (C_set_mode Silent)
           [] [SetProperty "mode" (VInt 1)] (VStr "ok")).
  reflexivity.
Defined.

(** X6: whatever a command writes lies in the domain of the property it
    names: a boolean for power, buzzer, child lock and gesture, an rpm in
    300..2300 divisible by 10, a level in 0..14, the code of a member for
    mode and LED brightness. *)
Theorem commands_write_only_valid_values (self : MiotDevice) (c : Command)
    (log : list Call) (r : Result PyVal) (k : string) (v : PyVal) :
  invoke self c log = (r, (log ++ [SetProperty k v])%list) ->
  (k = "power" /\ exists b, v = VBool b)
  \/ (k = "buzzer" /\ exists b, v = VBool b)
  \/ (k = "child_lock" /\ exists b, v = VBool b)
  \/ (k = "gesture" /\ exists b, v = VBool b)
  \/ (k = "favorite_rpm"
      /\ exists z, v = VInt z /\ 300 <= z <= 2300 /\ z mod 10 = 0)
  \/ (k = "favorite_level" /\ exists z, v = VInt z /\ 0 <= z <= 14)
  \/ (k = "mode" /\ exists m, v = VInt (OperationMode_value m))
  \/ (k = "led_brightness" /\ exists l, v = VInt (LedBrightness_value l)).
Proof.
  intros H.
  assert (forall k0 v0 (r0 : Result PyVal),
             (r0, (log ++ [SetProperty k0 v0])%list)
               = (r, (log ++ [SetProperty k v])%list) ->
             k0 = k /\ v0 = v) as Hinv.
  { intros k0 v0 r0 E. injection E as _ E.
    apply app_inv_head in E. injection E as <- <-. split; reflexivity. }
  destruct c; cbn [invoke] in H.
  - destruct (Hinv _ _ _ H) as [<- <-]. left. eauto.
  - destruct (Hinv _ _ _ H) as [<- <-]. left. eauto.
  - unfold AirPurifierZA1.set_favorite_rpm in H.
    destruct ((rpm <? 300) || (rpm >? 2300) || negb (rpm mod 10 =? 0)) eqn:G.
    + injection H as _ E. now apply log_not_extended in E.
    + destruct (Hinv _ _ _ H) as [<- <-]. apply rpm_guard_spec in G.
      do 4 right. left. split; [reflexivity|]. exists rpm. tauto.
  - destruct (Hinv _ _ _ H) as [<- <-]. do 6 right. left. eauto.
  - destruct (Hinv _ _ _ H) as [<- <-]. right. left. eauto.
  - destruct (Hinv _ _ _ H) as [<- <-]. do 2 right. left. eauto.
  - destruct (Hinv _ _ _ H) as [<- <-]. do 3 right. left. eauto.
  - unfold AirPurifierZA1.set_favorite_level in H.
    destruct ((level <? 0) || (level >? 14)) eqn:G.
    + injection H as _ E. now apply log_not_extended in E.
    + destruct (Hinv _ _ _ H) as [<- <-]. apply level_guard_spec in G.
      do 5 right. left. split; [reflexivity|]. exists level. tauto.
  - destruct (Hinv _ _ _ H) as [<- <-]. do 7 right. eauto.
Qed.

(** The write of [set_favorite_rpm 2300]. *)
Lemma commands_write_only_valid_values_witness :
  ("favorite_rpm" = "power" /\ exists b, VInt 2300 = VBool b)
  \/ ("favorite_rpm" = "buzzer" /\ exists b, VInt 2300 = VBool b)
  \/ ("favorite_rpm" = "child_lock" /\ exists b, VInt 2300 = VBool b)
  \/ ("favorite_rpm" = "gesture" /\ exists b, VInt 2300 = VBool b)
  \/ ("favorite_rpm" = "favorite_rpm"
      /\ exists z, VInt 2300 = VInt z /\ 300 <= z <= 2300 /\ z mod 10 = 0)
  \/ ("favorite_rpm" = "favorite_level" /\ exists z, VInt 2300 = VInt z /\ 0 <= z <= 14)
  \/ ("favorite_rpm" = "mode" /\ exists m, VInt 2300 = VInt (OperationMode_value m))
  \/ ("favorite_rpm" = "led_brightness"
      /\ exists l, VInt 2300 = VInt (LedBrightness_value l)).
Proof.
  apply (commands_write_only_valid_values quiet_device (C_set_favorite_rpm 2300)
           [] (Ok (VStr "ok")) "favorite_rpm" (VInt 2300)).
  reflexivity.
Defined.

(** ** The text of the rpm error *)

Lemma occurs_in_append_r (pre s t : string) :
  occurs_in s t = true -> occurs_in s (pre +:+ t) = true.
Proof.
  intros H. induction pre as [|c pre IH]; [exact H|].
  change (occurs_in s (String c (pre +:+ t)) = true).
  destruct s as [|d s]; [reflexivity|].
  cbn [occurs_in]. rewrite IH. apply orb_true_r.
Qed.

(** X7: the error [set_favorite_rpm] raises for a refused rpm has the
    message "Invalid favorite motor speed: <rpm>. Must be between 300
    and 2300 and divisible by 10": it shows the offending value, both
    bounds of the range and the step, and no call is made. *)
Theorem set_favorite_rpm_error_names_range (self : MiotDevice) (rpm : Z)
    (log : list Call) :
  ~ (300 <= rpm <= 2300 /\ rpm mod 10 = 0) ->
  exists msg,
    BasicAirPurifierMiot.set_favorite_rpm self rpm log
      = (Raise (AirPurifierMiotException msg), log)
    /\ msg = "Invalid favorite motor speed: " +:+ pretty rpm
              +:+ ". Must be between 300 and 2300 and divisible by 10"
    /\ occurs_in (pretty rpm) msg = true
    /\ occurs_in "between 300 and 2300" msg = true
    /\ occurs_in "divisible by 10" msg = true.
Proof.
  intros Hbad. eexists. split; [| split; [reflexivity | split; [| split]]].
  - unfold BasicAirPurifierMiot.set_favorite_rpm.
    destruct ((rpm <? 300) || (rpm >? 2300) || negb (rpm mod 10 =? 0)) eqn:G;
      [reflexivity|].
    apply rpm_guard_spec in G. contradiction.
  - apply occurs_in_app.
  - do 2 apply occurs_in_append_r. vm_compute. reflexivity.
  - do 2 apply occurs_in_append_r. vm_compute. reflexivity.
Qed.

(** The message for 2310. *)
Lemma set_favorite_rpm_error_names_range_witness :
  exists msg,
    BasicAirPurifierMiot.set_favorite_rpm quiet_device 2310 []
      = (Raise (AirPurifierMiotException msg), [])
    /\ msg = "Invalid favorite motor speed: " +:+ pretty 2310
              +:+ ". Must be between 300 and 2300 and divisible by 10"
    /\ occurs_in (pretty 2310) msg = true
    /\ occurs_in "between 300 and 2300" msg = true
    /\ occurs_in "divisible by 10" msg = true.
Proof.
  apply (set_favorite_rpm_error_names_range quiet_device 2310 []). lia.
Defined.

(** ** More on the status read *)

Lemma status_run (self : MiotDevice) (log : list Call) :
  AirPurifierZA1.status self log
    = (match get_properties_reply self with
       | Ok props =>
           match dict_of_results props ∅ with
           | Ok d => Ok {| data := d |}
           | Raise e => Raise e
           end
       | Raise e => Raise e
       end, (log ++ [GetPropertiesForMapping])%list).
Proof.
  unfold AirPurifierZA1.status, cbind, get_properties_for_mapping, clift.
  destruct (get_properties_reply self) as [props|e]; [|reflexivity].
  destruct (dict_of_results props ∅); reflexivity.
Qed.

Lemma status_ok_inv (self : MiotDevice) (props : list PropertyResult)
    (log log' : list Call) (st : DeviceStatus) :
  get_properties_reply self = Ok props ->
  AirPurifierZA1.status self log = (Ok st, log') ->
  dict_of_results props ∅ = Ok (data st).
Proof.
  intros Hreply H. rewrite status_run, Hreply in H.
  destruct (dict_of_results props ∅) as [d|e]; [|discriminate H].
  injection H as <- _. reflexivity.
Qed.

(** X8: a status read makes exactly one call to the client, the bulk
    read; it writes no property, whatever the device answers, and a
    failure of the bulk read is raised unchanged. *)
Theorem status_reads_once_never_writes (self : MiotDevice) (log : list Call) :
  snd (AirPurifierZA1.status self log) = (log ++ [GetPropertiesForMapping])%list
  /\ written_keys (snd (AirPurifierZA1.status self log)) = written_keys log
  /\ (forall e, get_properties_reply self = Raise e ->
        fst (AirPurifierZA1.status self log) = Raise e).
Proof.
  rewrite status_run. cbn [fst snd]. split; [reflexivity|]. split.
  - unfold written_keys. rewrite omap_app. cbn. apply app_nil_r.
  - intros e He. rewrite He. reflexivity.
Qed.

(** An entry with code 0 and no value stops the comprehension. *)
Lemma dict_of_results_missing_value (props : list PropertyResult)
    (acc : gmap string PyVal) (p : PropertyResult) :
  p ∈ props -> prop_code p = 0 -> prop_value p = None ->
  dict_of_results props acc = Raise (KeyError "value").
Proof.
  intros Hp Hc Hv. revert acc.
  induction props as [|q props IH]; intros acc.
  - now apply elem_of_nil in Hp.
  - cbn [dict_of_results].
    apply elem_of_cons in Hp as [<- | Hp].
    + rewrite Hc, Hv. reflexivity.
    + destruct (prop_code q =? 0).
      * destruct (prop_value q) as [v|]; [|reflexivity].
        cbn [rbind]. now apply IH.
      * cbn [rbind]. now apply IH.
Qed.

(** X9: given the list the bulk read returned, a status read succeeds if
    every entry with code 0 carries a value, and raises
    [KeyError "value"] as soon as one entry with code 0 carries none;
    an entry with an error code needs no value. *)
Theorem status_succeeds_iff_values_present (self : MiotDevice)
    (props : list PropertyResult) (log : list Call) :
  get_properties_reply self = Ok props ->
  ((forall p, p ∈ props -> prop_code p = 0 -> is_Some (prop_value p)) ->
     exists st, fst (AirPurifierZA1.status self log) = Ok st)
  /\ (forall p, p ∈ props -> prop_code p = 0 -> prop_value p = None ->
        fst (AirPurifierZA1.status self log) = Raise (KeyError "value")).
Proof.
  intros Hreply. rewrite status_run, Hreply. cbn [fst]. split.
  - intros Hwf. destruct (dict_of_results_total props ∅ Hwf) as [d ->]. eauto.
  - intros p Hp Hc Hv.
    now rewrite (dict_of_results_missing_value props ∅ p Hp Hc Hv).
Qed.

(** [reported] is read; [valueless] is not. *)
Lemma status_succeeds_iff_values_present_witness :
  (exists st, fst (AirPurifierZA1.status reporting_device []) = Ok st)
  /\ fst (AirPurifierZA1.status valueless_device []) = Raise (KeyError "value").
Proof.
  split.
  - apply (proj1 (status_succeeds_iff_values_present reporting_device reported []
                    eq_refl)).
    intros p Hp Hc. unfold reported in Hp.
    rewrite !elem_of_cons, elem_of_nil in Hp.
    destruct Hp as [-> | [-> | [-> | []]]]; cbn in Hc |- *; eauto; discriminate Hc.
  - refine (proj2 (status_succeeds_iff_values_present valueless_device valueless []
                     eq_refl)
              {| prop_did := "power"; prop_siid := 2; prop_piid := 1;
                 prop_code := 0; prop_value := None |} _ eq_refl eq_refl).
    apply list_elem_of_here.
Defined.

(** The keys of the built dictionary: those of the accumulator and the
    names of the entries. *)
Lemma dict_of_results_keys (props : list PropertyResult) (acc d : gmap string PyVal)
    (k : string) :
  dict_of_results props acc = Ok d ->
  is_Some (d !! k) <-> is_Some (acc !! k) \/ k ∈ (prop_did <$> props).
Proof.
  revert acc. induction props as [|p props IH]; intros acc Hd.
  - cbn in Hd. injection Hd as <-. rewrite fmap_nil, elem_of_nil. tauto.
  - cbn [dict_of_results] in Hd.
    destruct (if prop_code p =? 0 then _ else _) as [v|e]; [|discriminate Hd].
    cbn [rbind] in Hd. rewrite (IH _ Hd), fmap_cons, elem_of_cons.
    destruct (decide (prop_did p = k)) as [<- | Hne].
    + rewrite lookup_insert_eq. split; [auto | intros _; left; eauto].
    + rewrite lookup_insert_ne by exact Hne. split; [tauto|].
      intros [H | [H | H]]; [tauto | congruence | tauto].
Qed.

(** X10: the bag of a successful status read has exactly the logical
    names the bulk read listed as keys, error-coded ones included; a
    name the device did not list (such as "favorite_rpm" on this model)
    is missing from the bag, not null. *)
Theorem status_bag_keys (self : MiotDevice) (props : list PropertyResult)
    (log log' : list Call) (st : DeviceStatus) :
  get_properties_reply self = Ok props ->
  AirPurifierZA1.status self log = (Ok st, log') ->
  forall k, is_Some (data st !! k) <-> k ∈ (prop_did <$> props).
Proof.
  intros Hreply Hrun k.
  rewrite (dict_of_results_keys _ _ _ k (status_ok_inv _ _ _ _ _ Hreply Hrun)).
  rewrite lookup_empty. split; [intros [[? H] | H]; [discriminate H | exact H] | auto].
Qed.

(** The bag read from [reporting_device] has "tvoc" (refused by the
    device) and lacks "favorite_rpm". *)
Lemma status_bag_keys_witness :
  is_Some (data reported_status !! "tvoc")
  /\ ~ is_Some (data reported_status !! "favorite_rpm").
Proof.
  assert (AirPurifierZA1.status reporting_device []
          = (Ok reported_status, [GetPropertiesForMapping])) as Hrun
    by (vm_compute; reflexivity).
  pose proof (status_bag_keys reporting_device reported [] _ reported_status
                eq_refl Hrun) as Hk.
  split.
  - apply Hk. cbn. rewrite !elem_of_cons. auto.
  - intros H. apply Hk in H. cbn in H.
    rewrite !elem_of_cons, elem_of_nil in H. intuition discriminate.
Defined.

(** ** Accessors and the property map *)

Lemma accessor_key_mapped (a : Accessor) :
  a <> A_favorite_rpm -> is_Some (AirPurifierZA1.mapping !! accessor_key a).
Proof.
  intros Ha. destruct a; try congruence; vm_compute; eexists; reflexivity.
Qed.

Ltac find_accessor :=
  first [ exists A_is_on; split; [discriminate | reflexivity]
        | exists A_tvoc; split; [discriminate | reflexivity]
        | exists A_mode; split; [discriminate | reflexivity]
        | exists A_buzzer; split; [discriminate | reflexivity]
        | exists A_child_lock; split; [discriminate | reflexivity]
        | exists A_filter_life_remaining; split; [discriminate | reflexivity]
        | exists A_filter_hours_used; split; [discriminate | reflexivity]
        | exists A_motor_speed; split; [discriminate | reflexivity]
        | exists A_average_aqi; split; [discriminate | reflexivity]
        | exists A_humidity; split; [discriminate | reflexivity]
        | exists A_temperature; split; [discriminate | reflexivity]
        | exists A_led_brightness; split; [discriminate | reflexivity]
        | exists A_favorite_level; split; [discriminate | reflexivity]
        | exists A_use_time; split; [discriminate | reflexivity]
        | exists A_purify_volume; split; [discriminate | reflexivity]
        | exists A_filter_rfid_product_id; split; [discriminate | reflexivity]
        | exists A_filter_rfid_tag; split; [discriminate | reflexivity]
        | exists A_pm25; split; [discriminate | reflexivity]
        | exists A_gesture_status; split; [discriminate | reflexivity] ].

(** X11: the logical names of the property map are exactly the keys the
    status accessors other than [favorite_rpm] read: every such accessor
    reads a mapped name, and every mapped name is read by one of them. *)
Theorem accessor_keys_are_mapped_names (k : string) :
  is_Some (AirPurifierZA1.mapping !! k)
  <-> exists a, a <> A_favorite_rpm /\ accessor_key a = k.
Proof.
  split.
  - intros [addr H].
    unfold AirPurifierZA1.mapping, _MODEL_AIRPURIFIER_ZA1 in H.
    apply elem_of_list_to_map_2 in H.
    rewrite !elem_of_cons, elem_of_nil in H.
    repeat (destruct H as [H | H]; [injection H as -> _; find_accessor|]).
    destruct H.
  - intros (a & Ha & <-). now apply accessor_key_mapped.
Qed.

(** With its key present an accessor does not raise [KeyError]. *)
Lemma read_present_no_KeyError (a : Accessor) (st : DeviceStatus) (k : string) :
  is_Some (data st !! accessor_key a) -> read a st <> Raise (KeyError k).
Proof.
  intros [v Hv].
  destruct a; cbn [read accessor_key] in *;
    unfold AirPurifierZA1Status.is_on, AirPurifierZA1Status.power,
      AirPurifierZA1Status.tvoc, AirPurifierZA1Status.mode,
      AirPurifierZA1Status.buzzer, AirPurifierZA1Status.child_lock,
      AirPurifierZA1Status.filter_life_remaining,
      AirPurifierZA1Status.filter_hours_used, AirPurifierZA1Status.motor_speed,
      AirPurifierZA1Status.favorite_rpm, AirPurifierZA1Status.average_aqi,
      AirPurifierZA1Status.humidity, AirPurifierZA1Status.temperature,
      AirPurifierZA1Status.led_brightness, AirPurifierZA1Status.favorite_level,
      AirPurifierZA1Status.use_time, AirPurifierZA1Status.purify_volume,
      AirPurifierZA1Status.filter_rfid_product_id,
      AirPurifierZA1Status.filter_rfid_tag, AirPurifierZA1Status.pm25,
      AirPurifierZA1Status.gesture_status, AirPurifierZA1Status.is_on, getitem;
    try rewrite Hv; cbn [rbind]; try discriminate.
  - (* mode *)
    destruct (OperationMode_call_cases v) as [[m ->] | ->]; discriminate.
  - (* buzzer *)
    destruct (is_not_None v); discriminate.
  - (* temperature *)
    destruct v; discriminate.
  - (* led_brightness *)
    destruct (is_not_None v); [|discriminate].
    destruct (LedBrightness_call_cases v) as [[l ->] | ->]; discriminate.
Qed.

(** X12: when the bulk read lists every logical name of the property
    map, no accessor of the status it yields raises [KeyError]. *)
Theorem full_report_no_key_error (self : MiotDevice) (props : list PropertyResult)
    (log log' : list Call) (st : DeviceStatus) :
  get_properties_reply self = Ok props ->
  (forall k, is_Some (AirPurifierZA1.mapping !! k) -> k ∈ (prop_did <$> props)) ->
  AirPurifierZA1.status self log = (Ok st, log') ->
  forall a k, read a st <> Raise (KeyError k).
Proof.
  intros Hreply Hfull Hrun a k.
  assert (a = A_favorite_rpm \/ a <> A_favorite_rpm) as [-> | Ha]
    by (destruct a; first [left; reflexivity | right; discriminate]).
  - discriminate.
  - apply read_present_no_KeyError.
    apply (dict_of_results_keys _ _ _ _ (status_ok_inv _ _ _ _ _ Hreply Hrun)).
    right. apply Hfull. now apply accessor_key_mapped.
Qed.

(** On the status read from [complete_device], [gesture_status] finds
    its key. *)
Lemma full_report_no_key_error_witness :
  read A_gesture_status complete_status <> Raise (KeyError "gesture_status").
Proof.
  apply (full_report_no_key_error complete_device
           (answer_all AirPurifierZA1.mapping) [] [GetPropertiesForMapping]
           complete_status eq_refl).
  - intros k [addr Hk]. unfold answer_all.
    apply list_elem_of_fmap. eexists. split; [|apply list_elem_of_fmap_2].
    + instantiate (1 := (k, addr)). reflexivity.
    + now apply elem_of_map_to_list.
  - vm_compute. reflexivity.
Defined.

(** ** Decoding *)

(** X13: how a property the device refused (an entry with an error code,
    stored as [None]) reads through the accessors of the status:
    [mode] raises [ValueError], [is_on] returns [None] and [power] reads
    "off", while [buzzer], [led_brightness] and [temperature] return
    [None]. *)
Theorem error_coded_entry_decoding (self : MiotDevice)
    (l1 l2 : list PropertyResult) (p : PropertyResult) (log log' : list Call)
    (st : DeviceStatus) :
  get_properties_reply self = Ok (l1 ++ p :: l2)%list ->
  prop_code p <> 0 ->
  prop_did p ∉ (prop_did <$> l2) ->
  AirPurifierZA1.status self log = (Ok st, log') ->
  (prop_did p = "mode" ->
     AirPurifierZA1Status.mode st = Raise (ValueError VNone "OperationMode"))
  /\ (prop_did p = "power" ->
      AirPurifierZA1Status.is_on st = Ok VNone
      /\ AirPurifierZA1Status.power st = Ok (VStr "off"))
  /\ (prop_did p = "buzzer" -> AirPurifierZA1Status.buzzer st = Ok VNone)
  /\ (prop_did p = "led_brightness" ->
      AirPurifierZA1Status.led_brightness st = Ok VNone)
  /\ (prop_did p = "temperature" ->
      AirPurifierZA1Status.temperature st = Ok VNone).
Proof.
  intros Hreply Hcode Hlast Hrun.
  pose proof (dict_of_results_stored _ _ _ _ _
                (status_ok_inv _ _ _ _ _ Hreply Hrun) Hlast) as Hs.
  unfold stored_value in Hs.
  destruct (Z.eqb_spec (prop_code p) 0) as [|_]; [contradiction|].
  split; [| split; [| split; [| split]]]; intros E; rewrite E in Hs;
    unfold AirPurifierZA1Status.mode, AirPurifierZA1Status.power,
      AirPurifierZA1Status.is_on, AirPurifierZA1Status.buzzer,
      AirPurifierZA1Status.led_brightness, AirPurifierZA1Status.temperature,
      getitem;
    rewrite Hs; first [reflexivity | split; reflexivity].
Qed.

(** A refused "mode" makes the [mode] accessor raise. *)
Lemma error_coded_entry_decoding_witness :
  AirPurifierZA1Status.mode mode_refused_status
    = Raise (ValueError VNone "OperationMode").
Proof.
  refine (proj1 (error_coded_entry_decoding mode_refused_device
                   [ {| prop_did := "power"; prop_siid := 2; prop_piid := 1;
                        prop_code := 0; prop_value := Some (VBool true) |} ]
                   []
                   {| prop_did := "mode"; prop_siid := 2; prop_piid := 5;
                      prop_code := -4001; prop_value := None |}
                   [] [GetPropertiesForMapping] mode_refused_status
                   eq_refl _ _ _) eq_refl).
  - discriminate.
  - apply not_elem_of_nil.
  - vm_compute. reflexivity.
Defined.

Lemma member_by_value_sound {E : Type} (value : E -> Z) (members : list E)
    (z : Z) (m : E) :
  member_by_value value members (VInt z) = Some m -> value m = z.
Proof.
  unfold member_by_value. intros H.
  apply List.find_some in H as [_ H]. cbn in H.
  apply Z.eqb_eq in H. congruence.
Qed.

(** X14: writing back what was read writes what the device reported:
    when the raw mode is the integer [z] and [mode] decodes it to [m],
    [set_mode m] writes [z]; likewise for [led_brightness] and
    [set_led_brightness]. *)
Theorem read_then_write_back (self : MiotDevice) (st : DeviceStatus) (z : Z)
    (log : list Call) :
  (forall m,
     data st !! "mode" = Some (VInt z) ->
     AirPurifierZA1Status.mode st = Ok (VMode m) ->
     AirPurifierZA1.set_mode self m log
       = (set_property_reply self "mode" (VInt z),
          (log ++ [SetProperty "mode" (VInt z)])%list))
  /\ (forall l,
        data st !! "led_brightness" = Some (VInt z) ->
        AirPurifierZA1Status.led_brightness st = Ok (VLed l) ->
        AirPurifierZA1.set_led_brightness self l log
          = (set_property_reply self "led_brightness" (VInt z),
             (log ++ [SetProperty "led_brightness" (VInt z)])%list)).
Proof.
  split.
  - intros m Hraw Hm.
    unfold AirPurifierZA1Status.mode, getitem in Hm. rewrite Hraw in Hm.
    cbn [rbind OperationMode_call] in Hm.
    destruct (member_by_value OperationMode_value OperationMode_members (VInt z))
      as [m'|] eqn:Hf; [|discriminate Hm].
    injection Hm as ->. apply member_by_value_sound in Hf. subst z.
    apply set_property_run.
  - intros l Hraw Hl.
    unfold AirPurifierZA1Status.led_brightness, getitem in Hl. rewrite Hraw in Hl.
    cbn [rbind is_not_None LedBrightness_call] in Hl.
    destruct (member_by_value LedBrightness_value LedBrightness_members (VInt z))
      as [l'|] eqn:Hf; [|discriminate Hl].
    injection Hl as ->. apply member_by_value_sound in Hf. subst z.
    apply set_property_run.
Qed.

(** Mode 3 is read as Fan and written back as 3. *)
Lemma read_then_write_back_witness :
  AirPurifierZA1.set_mode quiet_device Fan []
    = (Ok (VStr "ok"), [SetProperty "mode" (VInt 3)]).
Proof.
  apply (proj1 (read_then_write_back quiet_device
                  (status_of {[ "mode" := VInt 3 ]}) 3 []) Fan);
    vm_compute; reflexivity.
Defined.

(** X15: with its key present, [led_brightness] never raises, whatever
    the raw value is, and returns [None] or a member; [mode] returns a
    member or raises [ValueError] carrying the raw value. *)
Theorem enumeration_accessor_outcomes (st : DeviceStatus) (v : PyVal) :
  (data st !! "led_brightness" = Some v ->
     AirPurifierZA1Status.led_brightness st = Ok VNone
     \/ exists l, AirPurifierZA1Status.led_brightness st = Ok (VLed l))
  /\ (data st !! "mode" = Some v ->
      (exists m, AirPurifierZA1Status.mode st = Ok (VMode m))
      \/ AirPurifierZA1Status.mode st = Raise (ValueError v "OperationMode")).
Proof.
  split; intros H.
  - unfold AirPurifierZA1Status.led_brightness, getitem. rewrite H.
    cbn [rbind]. destruct (is_not_None v); [|left; reflexivity].
    destruct (LedBrightness_call_cases v) as [[l ->] | ->]; eauto.
  - unfold AirPurifierZA1Status.mode, getitem. rewrite H. cbn [rbind].
    apply OperationMode_call_cases.
Qed.

(** A string under "led_brightness" reads as [None]; under "mode" it
    raises. *)
Lemma enumeration_accessor_outcomes_witness :
  (AirPurifierZA1Status.led_brightness (status_of {[ "led_brightness" := VStr "x" ]})
     = Ok VNone
   \/ exists l,
        AirPurifierZA1Status.led_brightness (status_of {[ "led_brightness" := VStr "x" ]})
          = Ok (VLed l))
  /\ ((exists m, AirPurifierZA1Status.mode (status_of {[ "mode" := VStr "x" ]})
                  = Ok (VMode m))
      \/ AirPurifierZA1Status.mode (status_of {[ "mode" := VStr "x" ]})
         = Raise (ValueError (VStr "x") "OperationMode")).
Proof.
  split.
  - apply (proj1 (enumeration_accessor_outcomes
                    (status_of {[ "led_brightness" := VStr "x" ]}) (VStr "x"))).
    vm_compute. reflexivity.
  - apply (proj2 (enumeration_accessor_outcomes
                    (status_of {[ "mode" := VStr "x" ]}) (VStr "x"))).
    vm_compute. reflexivity.
Defined.

(** X16: the accessors that do no decoding return the raw value of their
    key as it is, [None] included; for [buzzer] the test for [None]
    changes nothing. *)
Theorem raw_accessors_pass_through (a : Accessor) (st : DeviceStatus) (v : PyVal) :
  returns_raw a = true ->
  data st !! accessor_key a = Some v ->
  read a st = Ok v.
Proof.
  intros Ha Hv.
  destruct a; try discriminate Ha; cbn [read accessor_key] in *;
    unfold AirPurifierZA1Status.is_on, AirPurifierZA1Status.tvoc,
      AirPurifierZA1Status.buzzer, AirPurifierZA1Status.child_lock,
      AirPurifierZA1Status.filter_life_remaining,
      AirPurifierZA1Status.filter_hours_used, AirPurifierZA1Status.motor_speed,
      AirPurifierZA1Status.favorite_rpm, AirPurifierZA1Status.average_aqi,
      AirPurifierZA1Status.humidity, AirPurifierZA1Status.favorite_level,
      AirPurifierZA1Status.use_time, AirPurifierZA1Status.purify_volume,
      AirPurifierZA1Status.filter_rfid_product_id,
      AirPurifierZA1Status.filter_rfid_tag, AirPurifierZA1Status.pm25,
      AirPurifierZA1Status.gesture_status, getitem, dict_get;
    rewrite Hv; try reflexivity.
  cbn [rbind]. destruct v; reflexivity.
Qed.

(** The buzzer flag and the filter tag. *)
Lemma raw_accessors_pass_through_witness :
  read A_buzzer (status_of {[ "buzzer" := VBool false ]}) = Ok (VBool false)
  /\ read A_filter_rfid_tag (status_of {[ "filter_rfid_tag" := VStr "80:66:58" ]})
     = Ok (VStr "80:66:58").
Proof.
  split.
  - apply (raw_accessors_pass_through A_buzzer
             (status_of {[ "buzzer" := VBool false ]}) (VBool false));
      vm_compute; reflexivity.
  - apply (raw_accessors_pass_through A_filter_rfid_tag
             (status_of {[ "filter_rfid_tag" := VStr "80:66:58" ]}) (VStr "80:66:58"));
      vm_compute; reflexivity.
Defined.

(** X17: [temperature] rounds floats only: a raw integer comes back as
    that integer, and a raw string raises [TypeError] instead of being
    passed through. *)
Theorem temperature_of_non_floats (st : DeviceStatus) :
  (forall z : Z,
     data st !! "temperature" = Some (VInt z) ->
     AirPurifierZA1Status.temperature st = Ok (VInt z))
  /\ (forall s : string,
        data st !! "temperature" = Some (VStr s) ->
        exists msg, AirPurifierZA1Status.temperature st = Raise (TypeError msg)).
Proof.
  unfold AirPurifierZA1Status.temperature, getitem.
  split.
  - intros z H. rewrite H. reflexivity.
  - intros s H. rewrite H. eexists. reflexivity.
Qed.

(** 21 stays 21. *)
Lemma temperature_of_non_floats_witness :
  AirPurifierZA1Status.temperature (status_of {[ "temperature" := VInt 21 ]})
    = Ok (VInt 21).
Proof.
  apply (proj1 (temperature_of_non_floats (status_of {[ "temperature" := VInt 21 ]}))).
  vm_compute. reflexivity.
Defined.

(** X18: a mode that was set reads back: when the bulk read reports,
    under the name and with the value [set_mode m] wrote, an entry with
    code 0 that no later entry overrides, the [mode] accessor of the
    status returns [m]. *)
Theorem written_mode_reads_back (self : MiotDevice) (m : OperationMode)
    (k : string) (v : PyVal) (l1 l2 : list PropertyResult) (p : PropertyResult)
    (log log' : list Call) (st : DeviceStatus) :
  snd (AirPurifierZA1.set_mode self m []) = [SetProperty k v] ->
  get_properties_reply self = Ok (l1 ++ p :: l2)%list ->
  prop_did p = k ->
  prop_code p = 0 ->
  prop_value p = Some v ->
  prop_did p ∉ (prop_did <$> l2) ->
  AirPurifierZA1.status self log = (Ok st, log') ->
  AirPurifierZA1Status.mode st = Ok (VMode m).
Proof.
  intros Hset Hreply Hk Hcode Hval Hlast Hrun.
  cbn in Hset. injection Hset as <- <-.
  pose proof (dict_of_results_stored _ _ _ _ _
                (status_ok_inv _ _ _ _ _ Hreply Hrun) Hlast) as Hs.
  unfold stored_value in Hs. rewrite Hcode, Hval, Hk in Hs. cbn in Hs.
  unfold AirPurifierZA1Status.mode, getitem. rewrite Hs.
  destruct m; reflexivity.
Qed.

(** [reported] holds mode 2, which is what [set_mode Favorite] writes. *)
Lemma written_mode_reads_back_witness :
  AirPurifierZA1Status.mode reported_status = Ok (VMode Favorite).
Proof.
  apply (written_mode_reads_back reporting_device Favorite "mode" (VInt 2)
           [ {| prop_did := "power"; prop_siid := 2; prop_piid := 1;
                prop_code := 0; prop_value := Some (VBool true) |} ]
           [ {| prop_did := "tvoc"; prop_siid := 3; prop_piid := 1;
                prop_code := -4001; prop_value := None |} ]
           {| prop_did := "mode"; prop_siid := 2; prop_piid := 5;
              prop_code := 0; prop_value := Some (VInt 2) |}
           [] [GetPropertiesForMapping] reported_status);
    first [ reflexivity
          | cbn; rewrite elem_of_cons, elem_of_nil; intuition discriminate ].
Defined.
